(** * Video splitter: session controller, strategy selection, local
      segmentation and remote job client

    A shallow embedding of the [VideoSplitter] component and of the helpers
    of [lib/utils] it calls.

    Conventions of the embedding.
    - A JavaScript number that is an integer in the program (file sizes,
      loop counters, part numbers, the job's progress percentage) is a [Z].
      The probed duration and the progress value are finite numbers and are
      idealised as exact rationals ([Q]); the non-finite values a media
      element may report are outside the model.
    - A string is a [string] holding the UTF-8 bytes of the source literal.
    - React state and the two refs form the record [Session]; every
      [setX] of the source is a field update of the same name.
    - What the component does to the outside (network requests, timers,
      calls into the codec runtime, progress values handed to the progress
      bar) is appended, in program order, to a trace of [Action]s.
    - An [async] function is cut at each [await] whose answer comes from the
      network or a timer: the part before is a handler returning the pending
      continuation, the parts after are [resume] functions.  Answers of the
      codec runtime inside one local run are given by an oracle ([Codec]),
      so that a local run is one function of the oracle. *)

From Stdlib Require Import ZArith QArith Qround Qminmax Lqa List String Ascii DecimalString Sorted.
From Stdlib Require DecimalPos DecimalZ.
From stdpp Require Import base option list list_numbers sorting gmap sets strings.
Import ListNotations.

Close Scope Q_scope.
Local Open Scope Z_scope.
Local Open Scope string_scope.
Local Open Scope list_scope.

(** ** lib/utils *)

Module Utils.

(** [Number.prototype.toString] on an integer-valued number. *)
Definition toString (z : Z) : string := NilZero.string_of_int (Z.to_int z).

(** [Math.round(x)]: the integer nearest to [x], halves going up. *)
Definition Math_round (x : Q) : Z := Qfloor (x + (1 # 2))%Q.

(** [x.toFixed(1)] for [0 <= x]: the integer [n] with [n / 10] nearest
    to [x] (the larger one on a tie), printed with one decimal. *)
Definition toFixed1 (x : Q) : string :=
  let n := Qfloor (x * 10 + (1 # 2))%Q in
  toString (n / 10) +:+ "." +:+ toString (n mod 10).

Definition formatFileSize (bytes : Z) : string :=
  if (1024 * 1024 * 1024 <=? bytes)%Z
  then toFixed1 (inject_Z bytes / 1024 / 1024 / 1024)%Q +:+ "GB"
  else toString (Math_round (inject_Z bytes / 1024 / 1024)%Q) +:+ "MB".

(** The class [[^/.]] of the pattern of [getBaseName]. *)
Definition extChar (c : ascii) : bool :=
  negb (Ascii.eqb c "/"%char || Ascii.eqb c "."%char).

(** [s] matches [[^/.]+$] from its first character. *)
Fixpoint extTail (s : string) : bool :=
  match s with
  | EmptyString => false
  | String c EmptyString => extChar c
  | String c rest => extChar c && extTail rest
  end.

(** [filename.replace(/\.[^/.]+$/, '')]: the leftmost dot that is followed,
    up to the end of the name, by one or more characters other than [/] and
    [.] is removed together with what follows it. *)
Fixpoint getBaseName (filename : string) : string :=
  match filename with
  | EmptyString => EmptyString
  | String c rest =>
      if Ascii.eqb c "."%char && extTail rest then EmptyString
      else String c (getBaseName rest)
  end.

(** [Math.trunc(x)], the integer part of [x]. *)
Definition Math_trunc (x : Q) : Z := if Qle_bool 0 x then Qfloor x else Qceiling x.

(** [a % b] on finite numbers: the remainder has the sign of [a]. *)
Definition remainder (a b : Q) : Q := (a - b * inject_Z (Math_trunc (a / b)))%Q.

(** [s.padStart(2, '0')] *)
Definition padStart2 (s : string) : string :=
  match String.length s with
  | O => "00"
  | S O => "0" +:+ s
  | _ => s
  end.

Definition formatDuration (seconds : Q) : string :=
  let mins := Qfloor (seconds / 60)%Q in
  let secs := Qfloor (remainder seconds 60) in
  toString mins +:+ "分" +:+ padStart2 (toString secs) +:+ "秒".

End Utils.

(** ** Constants *)

Definition API_BASE_URL : string := "https://video-splitter-api.onrender.com".
Definition SEGMENT_DURATION : Z := 120.
Definition BROWSER_MAX_SIZE : Z := 300 * 1024 * 1024.
Definition SERVER_MAX_SIZE : Z := 5 * 1024 * 1024 * 1024.

(** The line feed of the template literals. *)
Definition LF : string := String "010"%char EmptyString.

(** ** Data model *)

Inductive Status := Idle | Loading | Ready | Processing | Completed | Error.

(** The part of a browser [File] the component reads. *)
Record File := {
  file_name : string;
  file_size : Z;
  file_type : string
}.

Record SplitFile := {
  name : string;
  partNumber : Z;
  downloadUrl : option string;
  url : option string
}.

(** The state hooks and refs of the component.  [currentJobIdRef] is
    [currentJobIdRef.current]; [fileInputValue] is the value of the file
    input behind [fileInputRef]. *)
Record Session := {
  status : Status;
  error : option string;
  warning : option string;
  progress : Q;
  progressText : string;
  selectedFile : option File;
  videoDuration : Q;
  splitFiles : list SplitFile;
  useServerProcessing : bool;
  currentJobIdRef : option string;
  fileInputValue : string
}.

(** The session a freshly mounted component starts in. *)
Definition initialSession : Session := {|
  status := Idle; error := None; warning := None; progress := 0%Q;
  progressText := ""; selectedFile := None; videoDuration := 0%Q;
  splitFiles := []; useServerProcessing := false;
  currentJobIdRef := None; fileInputValue := ""
|}.

(** What the component does to its environment, in program order. *)
Inductive Action :=
| Fetch (method : string) (target : string)   (* [fetch(target, {method})] *)
| SetTimeout (ms : Z)                          (* a timer is armed *)
| Report (p : Q)                               (* [setProgress(p)] *)
| GetVideoDuration (f : File)                  (* the duration probe is started *)
| CreateFFmpeg                                 (* [createFFmpeg({log: true})] *)
| Load                                         (* [ffmpeg.load()] *)
| FetchFile (f : File)                         (* [fetchFile(f)] *)
| WriteFile (buffer : string)                  (* [ffmpeg.FS('writeFile', buffer, _)] *)
| Run (args : list string)                     (* [ffmpeg.run(...args)] *)
| ReadFile (buffer : string)                   (* [ffmpeg.FS('readFile', buffer)] *)
| Unlink (buffer : string)                     (* [ffmpeg.FS('unlink', buffer)] *)
| CreateObjectURL (buffer : string).           (* a blob URL over the bytes read *)

(** The session together with what lies outside React: the named buffers
    alive in the codec runtime of the current local run, and the trace. *)
Record World := {
  session : Session;
  runtimeFS : gset string;
  trace : list Action
}.

Definition initialWorld : World :=
  {| session := initialSession; runtimeFS := ∅; trace := [] |}.

(** A thrown value: an [Error] with its message, or anything else. *)
Inductive Thrown := ErrorObject (message : string) | OtherValue.

(** ** The effect monad of the handlers: state over [World], with [throw] *)

Inductive Result (A : Type) := Ok (a : A) | Throw (e : Thrown).
Arguments Ok {A} a.
Arguments Throw {A} e.

Definition M (A : Type) : Type := World -> Result A * World.

#[export] Instance M_ret : MRet M := fun A a w => (Ok a, w).
#[export] Instance M_bind : MBind M := fun A B f m w =>
  match m w with
  | (Ok a, w') => f a w'
  | (Throw e, w') => (Throw e, w')
  end.

Definition throw {A} (e : Thrown) : M A := fun w => (Throw e, w).

(** [try { body } catch (err) { handler err }] *)
Definition tryCatch {A} (body : M A) (handler : Thrown -> M A) : M A := fun w =>
  match body w with
  | (Ok a, w') => (Ok a, w')
  | (Throw e, w') => handler e w'
  end.

Definition modify (f : Session -> Session) : M unit := fun w =>
  (Ok tt, {| session := f (session w); runtimeFS := runtimeFS w; trace := trace w |}).

Definition emit (a : Action) : M unit := fun w =>
  (Ok tt, {| session := session w; runtimeFS := runtimeFS w; trace := trace w ++ [a] |}).

Definition modifyFS (f : gset string -> gset string) : M unit := fun w =>
  (Ok tt, {| session := session w; runtimeFS := f (runtimeFS w); trace := trace w |}).

Definition getSession : M Session := fun w => (Ok (session w), w).

(** The world a handler leaves behind, whatever it returned. *)
Definition exec {A} (m : M A) (w : World) : World := snd (m w).

(** ** Session updates: one per state hook *)

Definition upd_status (v : Status) (s : Session) : Session :=
  {| status := v; error := error s; warning := warning s; progress := progress s;
     progressText := progressText s; selectedFile := selectedFile s;
     videoDuration := videoDuration s; splitFiles := splitFiles s;
     useServerProcessing := useServerProcessing s;
     currentJobIdRef := currentJobIdRef s; fileInputValue := fileInputValue s |}.

Definition upd_error (v : option string) (s : Session) : Session :=
  {| status := status s; error := v; warning := warning s; progress := progress s;
     progressText := progressText s; selectedFile := selectedFile s;
     videoDuration := videoDuration s; splitFiles := splitFiles s;
     useServerProcessing := useServerProcessing s;
     currentJobIdRef := currentJobIdRef s; fileInputValue := fileInputValue s |}.

Definition upd_warning (v : option string) (s : Session) : Session :=
  {| status := status s; error := error s; warning := v; progress := progress s;
     progressText := progressText s; selectedFile := selectedFile s;
     videoDuration := videoDuration s; splitFiles := splitFiles s;
     useServerProcessing := useServerProcessing s;
     currentJobIdRef := currentJobIdRef s; fileInputValue := fileInputValue s |}.

Definition upd_progress (v : Q) (s : Session) : Session :=
  {| status := status s; error := error s; warning := warning s; progress := v;
     progressText := progressText s; selectedFile := selectedFile s;
     videoDuration := videoDuration s; splitFiles := splitFiles s;
     useServerProcessing := useServerProcessing s;
     currentJobIdRef := currentJobIdRef s; fileInputValue := fileInputValue s |}.

Definition upd_progressText (v : string) (s : Session) : Session :=
  {| status := status s; error := error s; warning := warning s; progress := progress s;
     progressText := v; selectedFile := selectedFile s;
     videoDuration := videoDuration s; splitFiles := splitFiles s;
     useServerProcessing := useServerProcessing s;
     currentJobIdRef := currentJobIdRef s; fileInputValue := fileInputValue s |}.

Definition upd_selectedFile (v : option File) (s : Session) : Session :=
  {| status := status s; error := error s; warning := warning s; progress := progress s;
     progressText := progressText s; selectedFile := v;
     videoDuration := videoDuration s; splitFiles := splitFiles s;
     useServerProcessing := useServerProcessing s;
     currentJobIdRef := currentJobIdRef s; fileInputValue := fileInputValue s |}.

Definition upd_videoDuration (v : Q) (s : Session) : Session :=
  {| status := status s; error := error s; warning := warning s; progress := progress s;
     progressText := progressText s; selectedFile := selectedFile s;
     videoDuration := v; splitFiles := splitFiles s;
     useServerProcessing := useServerProcessing s;
     currentJobIdRef := currentJobIdRef s; fileInputValue := fileInputValue s |}.

Definition upd_splitFiles (v : list SplitFile) (s : Session) : Session :=
  {| status := status s; error := error s; warning := warning s; progress := progress s;
     progressText := progressText s; selectedFile := selectedFile s;
     videoDuration := videoDuration s; splitFiles := v;
     useServerProcessing := useServerProcessing s;
     currentJobIdRef := currentJobIdRef s; fileInputValue := fileInputValue s |}.

Definition upd_useServerProcessing (v : bool) (s : Session) : Session :=
  {| status := status s; error := error s; warning := warning s; progress := progress s;
     progressText := progressText s; selectedFile := selectedFile s;
     videoDuration := videoDuration s; splitFiles := splitFiles s;
     useServerProcessing := v;
     currentJobIdRef := currentJobIdRef s; fileInputValue := fileInputValue s |}.

Definition upd_currentJobIdRef (v : option string) (s : Session) : Session :=
  {| status := status s; error := error s; warning := warning s; progress := progress s;
     progressText := progressText s; selectedFile := selectedFile s;
     videoDuration := videoDuration s; splitFiles := splitFiles s;
     useServerProcessing := useServerProcessing s;
     currentJobIdRef := v; fileInputValue := fileInputValue s |}.

Definition upd_fileInputValue (v : string) (s : Session) : Session :=
  {| status := status s; error := error s; warning := warning s; progress := progress s;
     progressText := progressText s; selectedFile := selectedFile s;
     videoDuration := videoDuration s; splitFiles := splitFiles s;
     useServerProcessing := useServerProcessing s;
     currentJobIdRef := currentJobIdRef s; fileInputValue := v |}.

Definition setStatus (v : Status) : M unit := modify (upd_status v).
Definition setError (v : option string) : M unit := modify (upd_error v).
Definition setWarning (v : option string) : M unit := modify (upd_warning v).
Definition setProgressText (v : string) : M unit := modify (upd_progressText v).
Definition setSelectedFile (v : option File) : M unit := modify (upd_selectedFile v).
Definition setVideoDuration (v : Q) : M unit := modify (upd_videoDuration v).
Definition setSplitFiles (v : list SplitFile) : M unit := modify (upd_splitFiles v).
Definition setUseServerProcessing (v : bool) : M unit := modify (upd_useServerProcessing v).

(** [setProgress] also hands the value to the progress bar: it is traced. *)
Definition setProgress (v : Q) : M unit := modify (upd_progress v);; emit (Report v).

(** A JavaScript value used as a condition: [null] and the empty string
    are falsy. *)
Definition truthy (v : option string) : bool :=
  match v with
  | Some s => negb (String.eqb s "")
  | None => false
  end.

(** [err instanceof Error ? err.message : '不明なエラー'] *)
Definition causeText (err : Thrown) : string :=
  match err with
  | ErrorObject message => message
  | OtherValue => "不明なエラー"
  end.

#[export] Instance Status_eq_dec : EqDecision Status.
Proof. solve_decision. Defined.

(** [a > b] on finite numbers. *)
Definition Qgt_bool (a b : Q) : bool := negb (Qle_bool a b).

(** ** File selection ([handleFileSelect]) *)

(** The continuation of [handleFileSelect] suspended at
    [await getVideoDuration(file)], with the local it closes over. *)
Record Probe := {
  probed : File;
  shouldUseServer : bool
}.

Inductive ProbeAnswer := Resolved (duration : Q) | Rejected.

Definition MSG_NOT_VIDEO : string := "動画ファイルを選択してください".
Definition MSG_TOO_LARGE (bytes : Z) : string :=
  "ファイルサイズが大きすぎます（" +:+ Utils.formatFileSize bytes +:+ "）。" +:+ LF
  +:+ "5GB以下の動画に対応しています。".
Definition MSG_PROBE_FAILED : string :=
  "動画の読み込みに失敗しました。別の動画を試してください。".
Definition WARN_NO_SPLIT_NEEDED : string := "この動画は2分以下のため、分割不要です".
Definition WARN_LARGE_FILE : string :=
  "大きなファイルのため、サーバーで処理します。" +:+ LF
  +:+ "アップロードに時間がかかる場合があります。".

(** [handleFileSelect] up to the [await]; [file] is
    [event.target.files?.[0]]. *)
Definition handleFileSelect (file : option File) : M (option Probe) :=
  match file with
  | None => mret None
  | Some file =>
      setError None;;
      setWarning None;;
      setSplitFiles [];;
      setProgress 0%Q;;
      if negb (String.prefix "video/" (file_type file)) then
        setError (Some MSG_NOT_VIDEO);;
        setStatus Error;;
        mret None
      else if (SERVER_MAX_SIZE <? file_size file)%Z then
        setError (Some (MSG_TOO_LARGE (file_size file)));;
        setStatus Error;;
        mret None
      else
        setSelectedFile (Some file);;
        let shouldUseServer := (BROWSER_MAX_SIZE <? file_size file)%Z in
        setUseServerProcessing shouldUseServer;;
        setStatus Loading;;
        emit (GetVideoDuration file);;
        mret (Some {| probed := file; shouldUseServer := shouldUseServer |})
  end.

(** [handleFileSelect] from the [await] on, once the probe has answered. *)
Definition handleFileSelect_resume (k : Probe) (answer : ProbeAnswer) : M unit :=
  match answer with
  | Resolved duration =>
      setVideoDuration duration;;
      (if Qle_bool duration (inject_Z SEGMENT_DURATION) then
         setWarning (Some WARN_NO_SPLIT_NEEDED)
       else if shouldUseServer k then
         setWarning (Some WARN_LARGE_FILE)
       else mret tt);;
      setStatus Ready
  | Rejected =>
      setError (Some MSG_PROBE_FAILED);;
      setStatus Error
  end.

(** ** Reset ([handleReset]) *)

Definition jobUrl (jobId : string) : string := API_BASE_URL +:+ "/job/" +:+ jobId.

(** The file input is always rendered, so [fileInputRef.current] is set. *)
Definition handleReset : M unit :=
  st ← getSession;
  match currentJobIdRef st with
  | Some jobId =>
      if truthy (Some jobId) then
        emit (Fetch "DELETE" (jobUrl jobId));;
        modify (upd_currentJobIdRef None)
      else mret tt
  | None => mret tt
  end;;
  setStatus Idle;;
  setError None;;
  setWarning None;;
  setSelectedFile None;;
  setVideoDuration 0%Q;;
  setSplitFiles [];;
  setProgress 0%Q;;
  setProgressText "";;
  modify (upd_fileInputValue "").

(** ** What the rendered page offers in a session *)

(** The button that opens the file picker: [disabled={status === 'processing'}]. *)
Definition selectButtonDisabled (st : Session) : bool :=
  bool_decide (status st = Processing).

(** The split button: [status === 'ready' && videoDuration > SEGMENT_DURATION]. *)
Definition splitButtonShown (st : Session) : bool :=
  bool_decide (status st = Ready) && Qgt_bool (videoDuration st) (inject_Z SEGMENT_DURATION).


(** ** Local segmentation ([splitVideoBrowser]) *)

(** The answers of the codec runtime and of the browser during one local
    run: [None] when the call returns, [Some e] when it throws [e]. *)
Record Codec := {
  createFFmpeg : option Thrown;
  load : option Thrown;
  fetchFile : File -> option Thrown;
  FS_writeFile : string -> option Thrown;
  run : list string -> option Thrown;
  FS_readFile : string -> option Thrown;
  FS_unlink : string -> option Thrown;
  createObjectURL : string -> string
}.

(** A call into the environment: traced, then it returns or throws. *)
Definition call (a : Action) (answer : option Thrown) : M unit :=
  emit a;;
  match answer with
  | None => mret tt
  | Some e => throw e
  end.

Definition outputFileName (i : Z) : string := "output_" +:+ Utils.toString i +:+ ".mp4".

Definition outputName (baseName : string) (i : Z) : string :=
  baseName +:+ "_part" +:+ Utils.toString (i + 1) +:+ ".mp4".

(** The arguments of [ffmpeg.run] for the loop index [i]. *)
Definition ffmpegArgs (i : Z) : list string :=
  [ "-i"; "input.mp4";
    "-ss"; Utils.toString (i * SEGMENT_DURATION);
    "-t"; Utils.toString SEGMENT_DURATION;
    "-c"; "copy";
    "-avoid_negative_ts"; "make_zero";
    outputFileName i ].

Definition midProgress (numParts i : Z) : Q :=
  (((inject_Z i + (1 # 2)) / inject_Z numParts) * 100)%Q.

Definition endProgress (numParts i : Z) : Q :=
  (((inject_Z i + 1) / inject_Z numParts) * 100)%Q.

Definition newSplitFile (codec : Codec) (baseName : string) (i : Z) : SplitFile :=
  {| name := outputName baseName i; partNumber := i + 1;
     downloadUrl := None; url := Some (createObjectURL codec (outputFileName i)) |}.

Section LocalRun.

Variable codec : Codec.
Variable baseName : string.
Variable numParts : Z.

(** One pass through the body of the [for] loop. *)
Definition segment (i : Z) (files : list SplitFile) : M (list SplitFile) :=
  setProgressText ("分割中... (" +:+ Utils.toString (i + 1) +:+ "/"
                   +:+ Utils.toString numParts +:+ ")");;
  setProgress (midProgress numParts i);;
  call (Run (ffmpegArgs i)) (run codec (ffmpegArgs i));;
  modifyFS (fun fs => fs ∪ {[ outputFileName i ]});;
  call (ReadFile (outputFileName i)) (FS_readFile codec (outputFileName i));;
  emit (CreateObjectURL (outputFileName i));;
  let files := files ++ [ newSplitFile codec baseName i ] in
  call (Unlink (outputFileName i)) (FS_unlink codec (outputFileName i));;
  modifyFS (fun fs => fs ∖ {[ outputFileName i ]});;
  setProgress (endProgress numParts i);;
  mret files.

(** [for (let i = ...; i < numParts; i++)]: [n] is the number of passes
    left, [Z.to_nat (numParts - i)]. *)
Fixpoint segments (n : nat) (i : Z) (files : list SplitFile) : M (list SplitFile) :=
  match n with
  | O => mret files
  | S n' => files' ← segment i files; segments n' (i + 1) files'
  end.

End LocalRun.

Definition MSG_LOCAL_ERROR (err : Thrown) : string := "処理エラー: " +:+ causeText err.

(** [Math.ceil(videoDuration / SEGMENT_DURATION)] *)
Definition numPartsOf (videoDuration : Q) : Z :=
  Qceiling (videoDuration / inject_Z SEGMENT_DURATION)%Q.

(** The [try] block of [splitVideoBrowser]; [createFFmpeg] gives a fresh
    runtime, whose file system is empty. *)
Definition splitVideoBrowser_try (codec : Codec) (selectedFile : File) (videoDuration : Q) : M unit :=
  call CreateFFmpeg (createFFmpeg codec);;
  modifyFS (fun _ => ∅);;
  call Load (load codec);;
  let baseName := Utils.getBaseName (file_name selectedFile) in
  let numParts := numPartsOf videoDuration in
  call (FetchFile selectedFile) (fetchFile codec selectedFile);;
  call (WriteFile "input.mp4") (FS_writeFile codec "input.mp4");;
  modifyFS (fun fs => fs ∪ {[ "input.mp4" ]});;
  files ← segments codec baseName numParts (Z.to_nat numParts) 0 [];
  call (Unlink "input.mp4") (FS_unlink codec "input.mp4");;
  modifyFS (fun fs => fs ∖ {[ "input.mp4" ]});;
  setSplitFiles files;;
  setStatus Completed.

Definition splitVideoBrowser (codec : Codec) : M unit :=
  st ← getSession;
  match selectedFile st with
  | None => mret tt
  | Some file =>
      setStatus Processing;;
      setProgressText "ファイルを読み込み中...";;
      setProgress 0%Q;;
      tryCatch (splitVideoBrowser_try codec file (videoDuration st))
        (fun err =>
           setError (Some (MSG_LOCAL_ERROR err));;
           setStatus Error)
  end.

(** ** Remote job client ([splitVideoServer]) *)

(** One entry of [jobStatus.files]. *)
Record JobFile := {
  jf_name : string;
  jf_partNumber : Z
}.

(** The body of a status response.  The service sends [files] with a
    completed status; [job_error] is [None] when the field is absent. *)
Record JobStatus := {
  job_status : string;
  job_progress : Z;
  job_files : list JobFile;
  job_error : option string
}.

(** How [await fetch(.../split)] followed by [await response.json()] ends. *)
Inductive UploadAnswer :=
| UploadRejected (e : Thrown)
| UploadNotOk
| UploadOk (jobId : string).

(** How [await fetch(.../status/id)] followed by [await response.json()] ends. *)
Inductive StatusAnswer :=
| StatusRejected (e : Thrown)
| StatusNotOk
| StatusOk (jobStatus : JobStatus).

(** Where [splitVideoServer] is suspended; the job id is the local
    [jobId] of the function, not the ref. *)
Inductive Pending :=
| AwaitUpload
| AwaitTimer (jobId : string)
| AwaitStatus (jobId : string).

Definition statusUrl (jobId : string) : string := API_BASE_URL +:+ "/status/" +:+ jobId.

Definition downloadUrlOf (jobId : string) (part : Z) : string :=
  API_BASE_URL +:+ "/download/" +:+ jobId +:+ "/" +:+ Utils.toString part.

Definition MSG_SERVER_ERROR (err : Thrown) : string :=
  "サーバー処理エラー: " +:+ causeText err.

(** The [catch] block of [splitVideoServer]. *)
Definition splitVideoServer_catch (err : Thrown) : M (option Pending) :=
  setError (Some (MSG_SERVER_ERROR err));;
  setStatus Error;;
  mret None.

(** [splitVideoServer] up to the first [await]. *)
Definition splitVideoServer : M (option Pending) :=
  st ← getSession;
  match selectedFile st with
  | None => mret None
  | Some file =>
      setStatus Processing;;
      setProgressText "アップロード中...";;
      setProgress 0%Q;;
      emit (Fetch "POST" (API_BASE_URL +:+ "/split"));;
      mret (Some AwaitUpload)
  end.

(** From the upload's answer to the first timer of the polling loop. *)
Definition splitVideoServer_uploaded (a : UploadAnswer) : M (option Pending) :=
  tryCatch
    (match a with
     | UploadRejected e => throw e
     | UploadNotOk => throw (ErrorObject "アップロードに失敗しました")
     | UploadOk jobId =>
         modify (upd_currentJobIdRef (Some jobId));;
         setProgressText "処理中...";;
         emit (SetTimeout 2000);;
         mret (Some (AwaitTimer jobId))
     end)
    splitVideoServer_catch.

(** The timer of the loop has fired: the status request is sent. *)
Definition splitVideoServer_timer (jobId : string) : M (option Pending) :=
  emit (Fetch "GET" (statusUrl jobId));;
  mret (Some (AwaitStatus jobId)).

Definition toSplitFile (jobId : string) (f : JobFile) : SplitFile :=
  {| name := jf_name f; partNumber := jf_partNumber f;
     downloadUrl := Some (downloadUrlOf jobId (jf_partNumber f)); url := None |}.

(** The rest of one pass of the [while (true)] loop, from the status
    answer to the next timer, to [return], or to the [catch] block. *)
Definition splitVideoServer_status (jobId : string) (a : StatusAnswer) : M (option Pending) :=
  tryCatch
    (match a with
     | StatusRejected e => throw e
     | StatusNotOk => throw (ErrorObject "状態の取得に失敗しました")
     | StatusOk jobStatus =>
         if String.eqb (job_status jobStatus) "error" then
           throw (ErrorObject (if truthy (job_error jobStatus)
                               then default "" (job_error jobStatus)
                               else "処理中にエラーが発生しました"))
         else
           setProgress (inject_Z (job_progress jobStatus));;
           setProgressText ("処理中... " +:+ Utils.toString (job_progress jobStatus) +:+ "%");;
           if String.eqb (job_status jobStatus) "completed" then
             setSplitFiles (map (toSplitFile jobId) (job_files jobStatus));;
             setStatus Completed;;
             mret None
           else
             emit (SetTimeout 2000);;
             mret (Some (AwaitTimer jobId))
     end)
    splitVideoServer_catch.

(** What the environment hands back to a suspended [splitVideoServer]. *)
Inductive Answer :=
| Uploaded (a : UploadAnswer)
| TimerFired
| StatusArrived (a : StatusAnswer).

(** Resuming the suspended function with the answer it waits for; an
    answer it does not wait for leaves it suspended. *)
Definition splitVideoServer_resume (k : Pending) (a : Answer) : M (option Pending) :=
  match k, a with
  | AwaitUpload, Uploaded u => splitVideoServer_uploaded u
  | AwaitTimer jobId, TimerFired => splitVideoServer_timer jobId
  | AwaitStatus jobId, StatusArrived s => splitVideoServer_status jobId s
  | _, _ => mret (Some k)
  end.

(** ** The split action ([handleSplit]) *)

Definition handleSplit (codec : Codec) : M (option Pending) :=
  st ← getSession;
  if useServerProcessing st then splitVideoServer
  else splitVideoBrowser codec;; mret None.

(** ** Downloads ([handleDownload], [handleDownloadAll]) *)

(** The anchor element [handleDownload] builds and clicks. *)
Record Anchor := {
  href : string;
  download : string
}.

(** [file.downloadUrl || file.url || ''] *)
Definition hrefOf (file : SplitFile) : string :=
  if truthy (downloadUrl file) then default "" (downloadUrl file)
  else if truthy (url file) then default "" (url file)
  else "".

(** The click [handleDownload] performs for [file]. *)
Definition handleDownload (file : SplitFile) : Anchor :=
  {| href := hrefOf file; download := name file |}.

(** [handleDownloadAll]: one timer per file, [index * 1000] ms from now,
    each clicking the anchor of its file. *)
Definition handleDownloadAll (splitFiles : list SplitFile) : list (Z * Anchor) :=
  imap (fun index file => (Z.of_nat index * 1000, handleDownload file)) splitFiles.

(** ** What else the page renders *)

(** The card with the name, size and length of the selected file:
    [selectedFile && status !== 'idle' && status !== 'error']. *)
Definition infoCardShown (st : Session) : bool :=
  bool_decide (is_Some (selectedFile st))
  && negb (bool_decide (status st = Idle)) && negb (bool_decide (status st = Error)).

(** The line announcing the number of parts inside the card:
    [videoDuration > SEGMENT_DURATION]. *)
Definition partsLineShown (st : Session) : bool :=
  infoCardShown st && Qgt_bool (videoDuration st) (inject_Z SEGMENT_DURATION).

(** The [numParts] of the render, announced in that line. *)
Definition announcedParts (st : Session) : Z := numPartsOf (videoDuration st).

(** ** The remote job as a whole *)

(** One pass of the polling loop: the timer fires, the status request is
    sent and answered by [a]. *)
Definition pollOnce (jobId : string) (a : StatusAnswer) : M (option Pending) :=
  k ← splitVideoServer_timer jobId;
  match k with
  | Some (AwaitStatus jobId') => splitVideoServer_status jobId' a
  | _ => mret k
  end.

(** The polling loop fed with the status answers [answers] in turn, for as
    long as it keeps polling. *)
Fixpoint watch (jobId : string) (answers : list StatusAnswer) : M (option Pending) :=
  match answers with
  | [] => mret (Some (AwaitTimer jobId))
  | a :: rest =>
      k ← pollOnce jobId a;
      match k with
      | Some (AwaitTimer jobId') => watch jobId' rest
      | _ => mret k
      end
  end.


(** A status answer after which the loop does not poll again. *)
Definition terminal (a : StatusAnswer) : bool :=
  match a with
  | StatusOk jobStatus =>
      String.eqb (job_status jobStatus) "error" || String.eqb (job_status jobStatus) "completed"
  | _ => true
  end.

(** The number of answers the loop consumes: up to and including the
    first terminal one. *)
Fixpoint polls (answers : list StatusAnswer) : nat :=
  match answers with
  | [] => O
  | a :: rest => S (if terminal a then O else polls rest)
  end.

(** ** The handlers as transitions *)

(** One handler, or one resumption of a suspended handler, has run.  The
    continuation and the answer of a resumption are arbitrary, which
    covers every interleaving of the suspended functions. *)
Inductive handles : World → World → Prop :=
| handles_select (file : option File) (w : World) :
    handles w (exec (handleFileSelect file) w)
| handles_probe (k : Probe) (a : ProbeAnswer) (w : World) :
    handles w (exec (handleFileSelect_resume k a) w)
| handles_reset (w : World) :
    handles w (exec handleReset w)
| handles_split (codec : Codec) (w : World) :
    handles w (exec (handleSplit codec) w)
| handles_remote (k : Pending) (a : Answer) (w : World) :
    handles w (exec (splitVideoServer_resume k a) w).

(** The worlds the component can be in. *)
Definition reachable (w : World) : Prop := rtc handles initialWorld w.

(** ** Scenarios *)

(** A runtime in which every call returns. *)
Definition healthyCodec : Codec := {|
  createFFmpeg := None; load := None; fetchFile := fun _ => None;
  FS_writeFile := fun _ => None; run := fun _ => None;
  FS_readFile := fun _ => None; FS_unlink := fun _ => None;
  createObjectURL := fun buffer => "blob:" +:+ buffer
|}.

Definition MiB : Z := 1024 * 1024.
Definition GiB : Z := 1024 * 1024 * 1024.

Definition videoFile (bytes : Z) : File :=
  {| file_name := "base.mp4"; file_size := bytes; file_type := "video/mp4" |}.

(** Selecting [f] in world [w] and letting the probe answer [d]. *)
Definition selectAndProbe (f : File) (d : Q) (w : World) : World :=
  match handleFileSelect (Some f) w with
  | (Ok (Some k), w') => exec (handleFileSelect_resume k (Resolved d)) w'
  | (_, w') => w'
  end.

Definition scenarioA : World := selectAndProbe (videoFile (50 * MiB)) 300 initialWorld.
Definition scenarioB : World := selectAndProbe (videoFile (400 * MiB)) 600 initialWorld.
Definition scenarioC : World := selectAndProbe (videoFile (10 * MiB)) 60 initialWorld.
Definition scenarioD : World := selectAndProbe (videoFile (6 * GiB)) 60 initialWorld.

(** Scenario B after the split action and the answer to the upload. *)
Definition submittedB : World :=
  exec (splitVideoServer_uploaded (UploadOk "job-1")) (exec (handleSplit healthyCodec) scenarioB).

(** The first timer has fired: a status request is outstanding. *)
Definition pollingB : World := exec (splitVideoServer_timer "job-1") submittedB.

(** The status request failed: the session is in [Error] and still knows
    the job. *)
Definition failedRemoteB : World :=
  exec (splitVideoServer_status "job-1" StatusNotOk) pollingB.


(** A runtime whose transcode call throws. *)
Definition brokenRunCodec : Codec := {|
  createFFmpeg := None; load := None; fetchFile := fun _ => None;
  FS_writeFile := fun _ => None;
  run := fun _ => Some (ErrorObject "transcode failed");
  FS_readFile := fun _ => None; FS_unlink := fun _ => None;
  createObjectURL := fun buffer => "blob:" +:+ buffer
|}.

(** ** Reading a trace *)

(** What handler [m] appended to the trace when started in [w]. *)
Definition issued {A} (m : M A) (w : World) : list Action :=
  drop (length (trace w)) (trace (exec m w)).

(** The progress values, in the order they were reported. *)
Definition reports (t : list Action) : list Q :=
  omap (fun a => match a with Report p => Some p | _ => None end) t.

(** The argument lists of the transcode calls, in order. *)
Definition runCalls (t : list Action) : list (list string) :=
  omap (fun a => match a with Run args => Some args | _ => None end) t.

(** The requests sent to the job service, in order. *)
Definition requests (t : list Action) : list (string * string) :=
  omap (fun a => match a with Fetch m u => Some (m, u) | _ => None end) t.

(** What one pass of the loop does to the environment when nothing throws. *)
Definition iterationActions (numParts i : Z) : list Action :=
  [ Report (midProgress numParts i);
    Run (ffmpegArgs i);
    ReadFile (outputFileName i);
    CreateObjectURL (outputFileName i);
    Unlink (outputFileName i);
    Report (endProgress numParts i) ].

(** What a whole local run does to the environment when nothing throws. *)
Definition fullRunActions (f : File) (numParts : Z) : list Action :=
  [ Report 0%Q; CreateFFmpeg; Load; FetchFile f; WriteFile "input.mp4" ]
  ++ (seqZ 0 numParts ≫= iterationActions numParts)
  ++ [ Unlink "input.mp4" ].

(** The progress values of a whole run: 0, then the midpoint and the end
    value of each segment. *)
Definition fullRunReports (numParts : Z) : list Q :=
  0%Q :: (seqZ 0 numParts ≫= fun i => [midProgress numParts i; endProgress numParts i]).

(** The session with the two fields the loop writes blanked out: two
    sessions with equal frames differ at most in [progress] and
    [progressText]. *)
Definition frame (s : Session) : Session := upd_progress 0%Q (upd_progressText "" s).

(** Modelled from the spec: the duration argument section 4.3 names for
    segment [i], [min(SEGMENT_DURATION, duration - i*SEGMENT_DURATION)];
    the code passes [SEGMENT_DURATION] instead (see [ffmpegArgs]). *)
Definition specSegmentDuration (duration : Q) (i : Z) : Q :=
  Qmin (inject_Z SEGMENT_DURATION) (duration - inject_Z i * inject_Z SEGMENT_DURATION)%Q.

(** ** What is known after the loop body, the loop and the whole run *)

Section LocalRunSpec.

Variable codec : Codec.
Variable baseName : string.
Variable numParts : Z.

(** What is known after [segment], whether it returned or threw. *)
Record SegmentPost (i : Z) (files : list SplitFile) (w : World)
    (r : Result (list SplitFile)) (w' : World) : Prop := {
  sp_trace : ∃ T, trace w' = trace w ++ T ∧ T `prefix_of` iterationActions numParts i;
  sp_frame : frame (session w') = frame (session w);
  sp_keeps : ∀ b, b ≠ outputFileName i → b ∈ runtimeFS w' ↔ b ∈ runtimeFS w;
  sp_ok : ∀ files', r = Ok files' →
            trace w' = trace w ++ iterationActions numParts i
            ∧ files' = files ++ [newSplitFile codec baseName i]
            ∧ progress (session w') = endProgress numParts i
            ∧ outputFileName i ∉ runtimeFS w';
  sp_thrown : ∀ e, r = Throw e →
            run codec (ffmpegArgs i) = Some e
            ∨ FS_readFile codec (outputFileName i) = Some e
            ∨ FS_unlink codec (outputFileName i) = Some e
}.

(** What is known after the loop, whether it ran to its end or threw. *)
Record SegmentsPost (n : nat) (i : Z) (files : list SplitFile) (w : World)
    (r : Result (list SplitFile)) (w' : World) : Prop := {
  lp_trace : ∃ T, trace w' = trace w ++ T
               ∧ T `prefix_of` (seqZ i (Z.of_nat n) ≫= iterationActions numParts);
  lp_frame : frame (session w') = frame (session w);
  lp_keeps : ∀ b, (∀ j, b ≠ outputFileName j) → b ∈ runtimeFS w' ↔ b ∈ runtimeFS w;
  lp_none : n = O → w' = w;
  lp_ok : ∀ files', r = Ok files' →
            trace w' = trace w ++ (seqZ i (Z.of_nat n) ≫= iterationActions numParts)
            ∧ files' = files ++ (newSplitFile codec baseName <$> seqZ i (Z.of_nat n))
            ∧ (n ≠ O → progress (session w') = endProgress numParts (i + Z.of_nat n - 1))
            ∧ runtimeFS w' ⊆ runtimeFS w;
  lp_thrown : ∀ e, r = Throw e →
            ∃ j, i ≤ j < i + Z.of_nat n
              ∧ (run codec (ffmpegArgs j) = Some e
                 ∨ FS_readFile codec (outputFileName j) = Some e
                 ∨ FS_unlink codec (outputFileName j) = Some e)
}.

End LocalRunSpec.

Section RunSpec.

Variable codec : Codec.

(** [e] was thrown by one of the calls a local run over [f] makes. *)
Definition thrownByCodec (f : File) (numParts : Z) (e : Thrown) : Prop :=
  createFFmpeg codec = Some e
  ∨ load codec = Some e
  ∨ fetchFile codec f = Some e
  ∨ FS_writeFile codec "input.mp4" = Some e
  ∨ (∃ j, 0 ≤ j < numParts
        ∧ (run codec (ffmpegArgs j) = Some e
           ∨ FS_readFile codec (outputFileName j) = Some e
           ∨ FS_unlink codec (outputFileName j) = Some e))
  ∨ FS_unlink codec "input.mp4" = Some e.

(** The input buffer reached the runtime. *)
Definition inputWritten (f : File) : Prop :=
  createFFmpeg codec = None ∧ load codec = None
  ∧ fetchFile codec f = None ∧ FS_writeFile codec "input.mp4" = None.

(** The two ways a local run over [f], started in [w], ends in [w']. *)
Inductive RunOutcome (f : File) (w w' : World) : Prop :=
| RunCompleted
    (numParts := numPartsOf (videoDuration (session w)))
    (files := newSplitFile codec (Utils.getBaseName (file_name f)) <$> seqZ 0 numParts) :
    trace w' = trace w ++ fullRunActions f numParts →
    frame (session w') = frame (upd_status Completed (upd_splitFiles files (session w))) →
    ((0 < numParts)%Z → progress (session w') = endProgress numParts (numParts - 1)) →
    ((numParts <= 0)%Z → progress (session w') = 0%Q) →
    runtimeFS w' = ∅ →
    RunOutcome f w w'
| RunFailed (e : Thrown)
    (numParts := numPartsOf (videoDuration (session w))) :
    (∃ T, trace w' = trace w ++ T ∧ T `prefix_of` fullRunActions f numParts) →
    frame (session w')
      = frame (upd_status Error (upd_error (Some (MSG_LOCAL_ERROR e)) (session w))) →
    thrownByCodec f numParts e →
    (inputWritten f → "input.mp4" ∈ runtimeFS w') →
    RunOutcome f w w'.

End RunSpec.

(** * Properties *)

(** Unfolds the operations of the monad and the hooks. *)
Ltac munfold :=
  unfold exec, setStatus, setError, setWarning, setProgressText, setSelectedFile,
    setVideoDuration, setSplitFiles, setUseServerProcessing, setProgress,
    call, emit, modify, modifyFS, getSession, tryCatch, throw, mbind, M_bind, mret, M_ret in *.

(** ** The loop of the local run *)

Section LoopFacts.

Variable codec : Codec.
Variable baseName : string.
Variable numParts : Z.


Lemma segment_post i files w :
  SegmentPost codec baseName numParts i files w (segment codec baseName numParts i files w).1
                        (segment codec baseName numParts i files w).2.
Proof.
  unfold segment. munfold. simpl.
  destruct (run codec (ffmpegArgs i)) as [e1|] eqn:Hrun; simpl.
  { split; simpl; try done.
    - eexists. split; [rewrite <- app_assoc; reflexivity|].
      do 2 apply prefix_cons. apply prefix_nil.
    - intros e [= <-]. auto. }
  destruct (FS_readFile codec (outputFileName i)) as [e2|] eqn:Hread; simpl.
  { split; simpl; try done.
    - eexists. split; [rewrite <- !app_assoc; reflexivity|].
      do 3 apply prefix_cons. apply prefix_nil.
    - set_solver.
    - intros e [= <-]. auto. }
  destruct (FS_unlink codec (outputFileName i)) as [e3|] eqn:Hunl; simpl.
  { split; simpl; try done.
    - eexists. split; [rewrite <- !app_assoc; reflexivity|].
      do 5 apply prefix_cons. apply prefix_nil.
    - set_solver.
    - intros e [= <-]. auto. }
  split; simpl; try done.
  - eexists. split; [rewrite <- !app_assoc; reflexivity|]. done.
  - set_solver.
  - intros files' [= <-]. rewrite <- !app_assoc. split_and!; try done. set_solver.
Qed.

Lemma seqZ_succ (i : Z) (n : nat) :
  seqZ i (Z.of_nat (S n)) = i :: seqZ (i + 1) (Z.of_nat n).
Proof.
  rewrite seqZ_cons by lia. f_equal. f_equal; lia.
Qed.

Lemma segments_step n i files w :
  segments codec baseName numParts (S n) i files w =
  match segment codec baseName numParts i files w with
  | (Ok files', w') => segments codec baseName numParts n (i + 1) files' w'
  | (Throw e, w') => (Throw e, w')
  end.
Proof. reflexivity. Qed.


Lemma segments_post n : ∀ i files w,
  SegmentsPost codec baseName numParts n i files w (segments codec baseName numParts n i files w).1
                           (segments codec baseName numParts n i files w).2.
Proof.
  induction n as [|n IH]; intros i files w.
  - split; cbn; try done.
    + exists []. rewrite app_nil_r. split; [done|apply prefix_nil].
    + intros files' [= <-]. rewrite !app_nil_r. done.
  - rewrite segments_step.
    pose proof (segment_post i files w) as HS.
    destruct (segment codec baseName numParts i files w) as [[files1|e1] w1];
      cbn [fst snd] in HS.
    + destruct (sp_ok _ _ _ _ _ _ _ _ HS files1 eq_refl) as (Ht1 & Hf1 & Hp1 & Hfs1).
      specialize (IH (i + 1) files1 w1).
      destruct (segments codec baseName numParts n (i + 1) files1 w1) as [r2 w2];
        cbn [fst snd] in IH |- *.
      destruct IH as [(T2 & Ht2 & Hpre2) Hfr2 Hk2 Hz2 Hok2 Hth2].
      split; try rewrite seqZ_succ, bind_cons.
      * exists (iterationActions numParts i ++ T2). split.
        -- rewrite Ht2, Ht1, app_assoc. done.
        -- by apply prefix_app.
      * rewrite Hfr2. apply (sp_frame _ _ _ _ _ _ _ _ HS).
      * intros b Hb. rewrite (Hk2 b Hb). apply (sp_keeps _ _ _ _ _ _ _ _ HS), Hb.
      * done.
      * intros files' ->. destruct (Hok2 files' eq_refl) as (Ht & Hf & Hp & Hfs).
        split_and!.
        -- rewrite Ht, Ht1, app_assoc. done.
        -- rewrite Hf, Hf1, fmap_cons, <- app_assoc. done.
        -- intros _. destruct n as [|n'].
           ++ rewrite (Hz2 eq_refl), Hp1. f_equal. lia.
           ++ rewrite Hp by done. f_equal. lia.
        -- intros b Hb. apply Hfs in Hb.
           destruct (decide (b = outputFileName i)) as [->|Hne]; [done|].
           by apply (sp_keeps _ _ _ _ _ _ _ _ HS).
      * intros e ->. destruct (Hth2 e eq_refl) as (j & Hj & Hc).
        exists j. split; [lia|done].
    + split; cbn [fst snd].
      * destruct (sp_trace _ _ _ _ _ _ _ _ HS) as (T & Ht & Hpre). exists T. split; [done|].
        rewrite seqZ_succ, bind_cons. by apply prefix_app_r.
      * apply (sp_frame _ _ _ _ _ _ _ _ HS).
      * intros b Hb. apply (sp_keeps _ _ _ _ _ _ _ _ HS), Hb.
      * done.
      * done.
      * intros e [= <-]. exists i. split; [lia|]. by apply (sp_thrown _ _ _ _ _ _ _ _ HS).
Qed.

End LoopFacts.

(** ** The local run as a whole *)

Lemma seqZ_to_nat (i n : Z) : seqZ i (Z.of_nat (Z.to_nat n)) = seqZ i n.
Proof. unfold seqZ. by rewrite Nat2Z.id. Qed.

(** Closes a goal [frame s1 = frame s2] where [s1] and [s2] are updates of
    two sessions whose frames are equal by [H]. *)
Ltac frame_solve H :=
  let s1 := fresh "s" in let s2 := fresh "s" in
  repeat match goal with
  | H' : context [session ?w] |- _ =>
      is_var w; destruct w as [s1 ? ?]; cbn in *; destruct s1
  | |- context [session ?w] =>
      is_var w; destruct w as [s2 ? ?]; cbn in *; destruct s2
  end;
  unfold frame, upd_status, upd_error, upd_splitFiles, upd_progress, upd_progressText in *;
  cbn in *; injection H as ?; subst; reflexivity.

Section RunFacts.

Variable codec : Codec.

Lemma outputFileName_not_input j : "input.mp4" ≠ outputFileName j.
Proof. unfold outputFileName. cbn. discriminate. Qed.


Lemma splitVideoBrowser_outcome (w : World) (f : File) :
  selectedFile (session w) = Some f →
  RunOutcome codec f w (exec (splitVideoBrowser codec) w).
Proof.
  intros Hsel. unfold splitVideoBrowser, splitVideoBrowser_try.
  munfold. cbn. rewrite Hsel. cbn.
  set (N := numPartsOf (videoDuration (session w))).
  destruct (createFFmpeg codec) as [e|] eqn:Hc; cbn.
  { eapply (RunFailed _ _ _ _ e); cbn; unfold thrownByCodec, inputWritten; try tauto.
    - eexists. split; [rewrite <- !app_assoc; reflexivity|].
      do 2 apply prefix_cons. apply prefix_nil.
    - intros (? & _); congruence. }
  destruct (load codec) as [e|] eqn:Hl; cbn.
  { eapply (RunFailed _ _ _ _ e); cbn; unfold thrownByCodec, inputWritten; try tauto.
    - eexists. split; [rewrite <- !app_assoc; reflexivity|].
      do 3 apply prefix_cons. apply prefix_nil.
    - intros (? & ? & _); congruence. }
  destruct (fetchFile codec f) as [e|] eqn:Hf; cbn.
  { eapply (RunFailed _ _ _ _ e); cbn; unfold thrownByCodec, inputWritten; try tauto.
    - eexists. split; [rewrite <- !app_assoc; reflexivity|].
      do 4 apply prefix_cons. apply prefix_nil.
    - intros (? & ? & ? & _); congruence. }
  destruct (FS_writeFile codec "input.mp4") as [e|] eqn:Hw; cbn.
  { eapply (RunFailed _ _ _ _ e); cbn; unfold thrownByCodec, inputWritten; try tauto.
    - eexists. split; [rewrite <- !app_assoc; reflexivity|].
      do 5 apply prefix_cons. apply prefix_nil.
    - intros (? & ? & ? & ?); congruence. }
  match goal with
  | |- context [segments ?c ?b ?np ?n ?i ?fs ?w0] =>
      pose proof (segments_post c b np n i fs w0) as HL;
      destruct (segments c b np n i fs w0) as [[files|e] w1]
  end; cbn [fst snd] in HL; cbn;
    destruct HL as [(T & Ht & Hpre) Hfr Hk Hz Hok Hth]; cbn in Ht, Hfr, Hk, Hok, Hth;
    rewrite seqZ_to_nat in *.
  2:{ destruct (Hth e eq_refl) as (j & Hj & Hcause).
      eapply (RunFailed _ _ _ _ e); cbn.
      - exists ([Report 0%Q; CreateFFmpeg; Load; FetchFile f; WriteFile "input.mp4"] ++ T).
        split; [rewrite Ht, <- !app_assoc; reflexivity|].
        cbn. do 5 apply prefix_cons. by apply prefix_app_r.
      - frame_solve Hfr.
      - do 4 right. left. exists j. split; [fold N; lia|done].
      - intros _. apply Hk; [apply outputFileName_not_input|set_solver]. }
  destruct (Hok files eq_refl) as (Ht' & Hfiles & Hprog & Hfs).
  assert ("input.mp4" ∈ runtimeFS w1) as Hin.
  { apply Hk; [apply outputFileName_not_input|set_solver]. }
  destruct (FS_unlink codec "input.mp4") as [e|] eqn:Hu; cbn.
  { eapply (RunFailed _ _ _ _ e); cbn.
    - exists (fullRunActions f N). split; [|done].
      rewrite Ht'. unfold fullRunActions. rewrite <- !app_assoc. reflexivity.
    - frame_solve Hfr.
    - do 5 right. done.
    - done. }
  eapply RunCompleted; cbn.
  - rewrite Ht'. unfold fullRunActions. rewrite <- !app_assoc. reflexivity.
  - rewrite Hfiles. fold N. frame_solve Hfr.
  - fold N. intros HN. rewrite Hprog by lia. f_equal. lia.
  - fold N. intros HN. rewrite Hz by lia. reflexivity.
  - apply set_eq. intros b. split; [|set_solver].
    intros [Hb Hne]%elem_of_difference. apply Hfs in Hb. set_solver.
Qed.

End RunFacts.

(** ** Reading what a handler issued *)

Lemma issued_app {A} (m : M A) (w : World) (T : list Action) :
  trace (exec m w) = trace w ++ T → issued m w = T.
Proof. intros H. unfold issued. rewrite H. apply drop_app_length. Qed.

(** ** File selection *)

(** C1. The strategy decision of [handleFileSelect] follows the rule order:
    a file above [SERVER_MAX_SIZE] is rejected before anything is recorded
    or probed; otherwise (for a video file, once the probe answers [d]) a
    duration of at most [SEGMENT_DURATION] gives the no-split warning
    whatever the size; otherwise a file above [BROWSER_MAX_SIZE] takes the
    server path with the large-file warning; otherwise the browser path
    with no warning. *)
Theorem strategy_rule_order (w : World) (f : File) (d : Q) :
  let start := handleFileSelect (Some f) w in
  if (SERVER_MAX_SIZE <? file_size f)%Z then
    start.1 = Ok None
    ∧ status (session start.2) = Error
    ∧ is_Some (error (session start.2))
    ∧ issued (handleFileSelect (Some f)) w = [Report 0%Q]
    ∧ selectedFile (session start.2) = selectedFile (session w)
    ∧ useServerProcessing (session start.2) = useServerProcessing (session w)
    ∧ videoDuration (session start.2) = videoDuration (session w)
  else if negb (String.prefix "video/" (file_type f)) then
    start.1 = Ok None
    ∧ status (session start.2) = Error
    ∧ error (session start.2) = Some MSG_NOT_VIDEO
  else
    ∃ k, start.1 = Ok (Some k)
      ∧ probed k = f
      ∧ issued (handleFileSelect (Some f)) w = [Report 0%Q; GetVideoDuration f]
      ∧ let s := session (exec (handleFileSelect_resume k (Resolved d)) start.2) in
        status s = Ready
        ∧ error s = None
        ∧ selectedFile s = Some f
        ∧ videoDuration s = d
        ∧ if Qle_bool d (inject_Z SEGMENT_DURATION) then
            warning s = Some WARN_NO_SPLIT_NEEDED
          else if (BROWSER_MAX_SIZE <? file_size f)%Z then
            useServerProcessing s = true ∧ warning s = Some WARN_LARGE_FILE
          else
            useServerProcessing s = false ∧ warning s = None.
Proof.
  cbn zeta. unfold issued, handleFileSelect, handleFileSelect_resume. munfold.
  destruct (String.prefix "video/" (file_type f)) eqn:Hv;
    destruct (SERVER_MAX_SIZE <? file_size f)%Z eqn:Hs; cbn.
  - split_and!; try done. apply drop_app_length.
  - eexists. split; [reflexivity|]. cbn. split; [done|]. split.
    { rewrite <- app_assoc. apply drop_app_length. }
    destruct (Qle_bool d (inject_Z SEGMENT_DURATION)); cbn; [done|].
    destruct (BROWSER_MAX_SIZE <? file_size f)%Z; cbn; done.
  - split_and!; try done. apply drop_app_length.
  - done.
Qed.

(** C10. A file that fails validation (not a video, or above
    [SERVER_MAX_SIZE]) only sets the error message and the status, after
    the error, the warning, the segment list and the progress were cleared:
    the file selected before and its probed duration stay as they were. *)
Theorem rejected_file_keeps_selection (w : World) (f : File) :
  negb (String.prefix "video/" (file_type f)) || (SERVER_MAX_SIZE <? file_size f)%Z = true →
  let w' := exec (handleFileSelect (Some f)) w in
  (handleFileSelect (Some f) w).1 = Ok None
  ∧ session w' =
      upd_status Error
        (upd_error (Some (if String.prefix "video/" (file_type f)
                          then MSG_TOO_LARGE (file_size f) else MSG_NOT_VIDEO))
           (upd_progress 0%Q (upd_splitFiles [] (upd_warning None (upd_error None (session w))))))
  ∧ selectedFile (session w') = selectedFile (session w)
  ∧ videoDuration (session w') = videoDuration (session w)
  ∧ runtimeFS w' = runtimeFS w
  ∧ issued (handleFileSelect (Some f)) w = [Report 0%Q].
Proof.
  intros H. cbn zeta.
  assert (trace (exec (handleFileSelect (Some f)) w) = trace w ++ [Report 0%Q]) as Ht.
  { unfold handleFileSelect. munfold.
    destruct (String.prefix "video/" (file_type f)); cbn in *; [rewrite H|]; done. }
  split_and!; [..|by apply issued_app];
    unfold handleFileSelect; munfold;
    destruct (String.prefix "video/" (file_type f)); cbn in *; try rewrite H; done.
Qed.

(** C10 in scenario A, on picking a file of 6 GiB. *)
Lemma rejected_file_keeps_selection_witness :
  let w' := exec (handleFileSelect (Some (videoFile (6 * GiB)))) scenarioA in
  selectedFile (session w') = Some (videoFile (50 * MiB))
  ∧ videoDuration (session w') = 300%Q
  ∧ status (session w') = Error.
Proof.
  destruct (rejected_file_keeps_selection scenarioA (videoFile (6 * GiB)) eq_refl)
    as (_ & Hs & Hf & Hd & _).
  cbn zeta in *. rewrite Hf, Hd, Hs. split_and!; reflexivity.
Defined.

(** ** Reset *)


(** C7, as stated, fails: with a job known to the session (scenario B after
    a failed status request), selecting a file sends nothing to the job
    service, and selecting a file that is not a video leads to [Error],
    not to [Loading]. *)
Lemma select_with_known_job_sends_no_cancel :
  let w := failedRemoteB in
  let f := videoFile (10 * MiB) in
  let notes := {| file_name := "notes.txt"; file_size := 10; file_type := "text/plain" |} in
  truthy (currentJobIdRef (session w)) = true
  ∧ status (session w) = Error
  ∧ issued (handleFileSelect (Some f)) w = [Report 0%Q; GetVideoDuration f]
  ∧ requests (issued (handleFileSelect (Some f)) w) = []
  ∧ status (session (exec (handleFileSelect (Some f)) w)) = Loading
  ∧ status (session (exec (handleFileSelect (Some notes)) w)) = Error.
Proof. vm_compute. done. Qed.

(** C7, amended. From every world, selecting a file that passes validation
    (a video of at most [SERVER_MAX_SIZE] bytes) clears error, warning,
    segments and progress, records the file, starts the duration probe and
    leaves the session in [Loading]; a file that fails validation leaves it
    in [Error] with a message.  In [Processing] the button that opens the
    file picker is disabled. *)
Theorem selection_restarts_at_loading (w : World) (f : File) :
  let w' := exec (handleFileSelect (Some f)) w in
  (if String.prefix "video/" (file_type f) && (file_size f <=? SERVER_MAX_SIZE)%Z then
     (handleFileSelect (Some f) w).1
       = Ok (Some {| probed := f; shouldUseServer := (BROWSER_MAX_SIZE <? file_size f)%Z |})
     ∧ status (session w') = Loading
     ∧ selectedFile (session w') = Some f
     ∧ error (session w') = None
     ∧ warning (session w') = None
     ∧ splitFiles (session w') = []
     ∧ progress (session w') = 0%Q
     ∧ GetVideoDuration f ∈ issued (handleFileSelect (Some f)) w
   else
     (handleFileSelect (Some f) w).1 = Ok None
     ∧ status (session w') = Error
     ∧ is_Some (error (session w')))
  ∧ (status (session w) = Processing → selectButtonDisabled (session w) = true).
Proof.
  cbn zeta. split.
  - rewrite Z.leb_antisym. unfold issued, handleFileSelect. munfold.
    destruct (String.prefix "video/" (file_type f));
      destruct (SERVER_MAX_SIZE <? file_size f)%Z; cbn; split_and!; try done.
    rewrite <- app_assoc, drop_app_length. set_solver.
  - intros H. unfold selectButtonDisabled. by rewrite H.
Qed.

(** The amended C7 in scenario B after the failed status request. *)
Lemma selection_restarts_at_loading_witness :
  status (session (exec (handleFileSelect (Some (videoFile (10 * MiB)))) failedRemoteB)) = Loading
  ∧ status (session failedRemoteB) = Error.
Proof.
  split; [|reflexivity].
  exact (proj1 (proj2 (proj1
           (selection_restarts_at_loading failedRemoteB (videoFile (10 * MiB)))))).
Defined.

(** ** The split action *)

(** C4, as stated, fails: in scenario C (10 MiB, 60 s, no-split warning)
    [handleSplit] is not rejected; it runs the local segmentation to its
    end. *)
Lemma short_video_split_is_processed :
  let w' := exec (handleSplit healthyCodec) scenarioC in
  Qle_bool (videoDuration (session scenarioC)) (inject_Z SEGMENT_DURATION) = true
  ∧ warning (session scenarioC) = Some WARN_NO_SPLIT_NEEDED
  ∧ status (session w') = Completed
  ∧ error (session w') = None
  ∧ partNumber <$> splitFiles (session w') = [1%Z]
  ∧ runCalls (issued (handleSplit healthyCodec) scenarioC) = [ffmpegArgs 0].
Proof. vm_compute. done. Qed.

(** C4, amended. The page renders the split button exactly when the
    status is [Ready] and the duration exceeds [SEGMENT_DURATION]; so when
    the duration is at most [SEGMENT_DURATION] the split action is not
    offered. *)
Theorem short_video_offers_no_split (st : Session) :
  (splitButtonShown st = true
     ↔ status st = Ready ∧ (inject_Z SEGMENT_DURATION < videoDuration st)%Q)
  ∧ ((videoDuration st <= inject_Z SEGMENT_DURATION)%Q → splitButtonShown st = false).
Proof.
  unfold splitButtonShown, Qgt_bool. split.
  - rewrite andb_true_iff, bool_decide_eq_true, negb_true_iff.
    split; intros [Hs Hd]; (split; [done|]).
    + apply Qnot_le_lt. intros Hle. apply Qle_bool_iff in Hle. congruence.
    + apply not_true_is_false. intros Hle. apply Qle_bool_iff in Hle. lra.
  - intros H. apply Qle_bool_iff in H. rewrite H. apply andb_false_r.
Qed.

(** The amended C4 in scenario C. *)
Lemma short_video_offers_no_split_witness :
  splitButtonShown (session scenarioC) = false.
Proof.
  apply (proj2 (short_video_offers_no_split (session scenarioC))).
  vm_compute. discriminate.
Defined.

(** ** The polling loop *)



(** ** Reading the trace of a local run *)

Lemma omap_prefix {A B} (g : A → option B) (T L : list A) :
  T `prefix_of` L → omap g T `prefix_of` omap g L.
Proof. intros [k ->]. rewrite omap_app. by apply prefix_app_r. Qed.

Lemma runCalls_loop (numParts : Z) (l : list Z) :
  runCalls (l ≫= iterationActions numParts) = ffmpegArgs <$> l.
Proof.
  induction l as [|i l IH]; [done|].
  rewrite bind_cons, fmap_cons. unfold runCalls in *. rewrite omap_app, IH. done.
Qed.

Lemma reports_loop (numParts : Z) (l : list Z) :
  reports (l ≫= iterationActions numParts)
  = l ≫= (fun i => [midProgress numParts i; endProgress numParts i]).
Proof.
  induction l as [|i l IH]; [done|].
  rewrite !bind_cons. unfold reports in *. rewrite omap_app, IH. done.
Qed.

Lemma runCalls_full (f : File) (numParts : Z) :
  runCalls (fullRunActions f numParts) = ffmpegArgs <$> seqZ 0 numParts.
Proof.
  unfold fullRunActions, runCalls. rewrite !omap_app.
  fold (runCalls (seqZ 0 numParts ≫= iterationActions numParts)).
  rewrite runCalls_loop. cbn. by rewrite app_nil_r.
Qed.

Lemma reports_full (f : File) (numParts : Z) :
  reports (fullRunActions f numParts) = fullRunReports numParts.
Proof.
  unfold fullRunActions, fullRunReports, reports. rewrite !omap_app.
  fold (reports (seqZ 0 numParts ≫= iterationActions numParts)).
  rewrite reports_loop. cbn. by rewrite app_nil_r.
Qed.

Lemma frame_fields (s s' : Session) :
  frame s = frame s' →
  status s = status s' ∧ error s = error s' ∧ warning s = warning s'
  ∧ selectedFile s = selectedFile s' ∧ videoDuration s = videoDuration s'
  ∧ splitFiles s = splitFiles s' ∧ useServerProcessing s = useServerProcessing s'
  ∧ currentJobIdRef s = currentJobIdRef s'.
Proof.
  destruct s, s'. unfold frame, upd_progress, upd_progressText. cbn.
  intros [= -> -> -> -> -> -> -> -> ->]. done.
Qed.

(** What a local run issued is a prefix of the full run, and all of it
    when the run completed. *)
Lemma splitVideoBrowser_issued (codec : Codec) (w : World) (f : File) :
  selectedFile (session w) = Some f →
  let numParts := numPartsOf (videoDuration (session w)) in
  issued (splitVideoBrowser codec) w `prefix_of` fullRunActions f numParts
  ∧ (status (session (exec (splitVideoBrowser codec) w)) = Completed →
       issued (splitVideoBrowser codec) w = fullRunActions f numParts).
Proof.
  intros Hsel numParts.
  destruct (splitVideoBrowser_outcome codec w f Hsel) as [N files Ht Hfr _ _ _|e N (T & Ht & Hpre) Hfr _ _].
  - rewrite (issued_app _ _ _ Ht). done.
  - rewrite (issued_app _ _ _ Ht). split; [done|].
    apply frame_fields in Hfr as (Hst & _). cbn in Hst. rewrite Hst. discriminate.
Qed.

(** ** The transcode calls *)

Lemma specSegmentDuration_full (duration : Q) (i : Z) :
  (inject_Z ((i + 1) * SEGMENT_DURATION) <= duration)%Q →
  (specSegmentDuration duration i == inject_Z SEGMENT_DURATION)%Q.
Proof.
  intros H. unfold specSegmentDuration. apply Q.min_l.
  rewrite inject_Z_mult, inject_Z_plus in H.
  change (inject_Z SEGMENT_DURATION) with 120%Q in *.
  change (inject_Z 1) with 1%Q in H. lra.
Qed.

Lemma specSegmentDuration_short (duration : Q) (i : Z) :
  (duration < inject_Z ((i + 1) * SEGMENT_DURATION))%Q →
  (specSegmentDuration duration i < inject_Z SEGMENT_DURATION)%Q.
Proof.
  intros H. unfold specSegmentDuration.
  rewrite inject_Z_mult, inject_Z_plus in H.
  change (inject_Z SEGMENT_DURATION) with 120%Q in *.
  change (inject_Z 1) with 1%Q in H.
  assert (duration - inject_Z i * 120 < 120)%Q as Hlt by lra.
  rewrite Q.min_r by lra. done.
Qed.

(** C2, as stated, fails: for the 300 s video of scenario A the third
    transcode call is given the duration 120, while
    [min(120, 300 - 2*120)] is 60. *)
Lemma last_segment_duration_argument :
  runCalls (issued (handleSplit healthyCodec) scenarioA) !! 2%nat
    = Some [ "-i"; "input.mp4"; "-ss"; "240"; "-t"; "120"; "-c"; "copy";
             "-avoid_negative_ts"; "make_zero"; "output_2.mp4" ]
  ∧ videoDuration (session scenarioA) = 300%Q
  ∧ (specSegmentDuration 300 2 == 60)%Q
  ∧ Utils.toString 60 = "60".
Proof. vm_compute. done. Qed.

(** C2, amended. In every local run the [k]-th transcode call (0-based)
    exists only for [k < numParts] and is given the start offset
    [k * SEGMENT_DURATION], the duration [SEGMENT_DURATION], stream copy and
    [-avoid_negative_ts make_zero]; that duration is the
    [min(SEGMENT_DURATION, D - k * SEGMENT_DURATION)] of the specification
    for every segment that lies wholly inside the video, and exceeds it
    for a segment that the video ends in. *)
Theorem transcode_call_arguments (codec : Codec) (w : World) (f : File) (k : nat) (args : list string) :
  selectedFile (session w) = Some f →
  runCalls (issued (splitVideoBrowser codec) w) !! k = Some args →
  let D := videoDuration (session w) in
  (Z.of_nat k < numPartsOf D)%Z
  ∧ args = [ "-i"; "input.mp4";
             "-ss"; Utils.toString (Z.of_nat k * 120);
             "-t"; "120";
             "-c"; "copy";
             "-avoid_negative_ts"; "make_zero";
             outputFileName (Z.of_nat k) ]
  ∧ ((inject_Z ((Z.of_nat k + 1) * SEGMENT_DURATION) <= D)%Q →
       (specSegmentDuration D (Z.of_nat k) == 120)%Q)
  ∧ ((D < inject_Z ((Z.of_nat k + 1) * SEGMENT_DURATION))%Q →
       (specSegmentDuration D (Z.of_nat k) < 120)%Q).
Proof.
  intros Hsel Hk D.
  destruct (splitVideoBrowser_issued codec w f Hsel) as [Hpre _].
  apply (omap_prefix (fun a => match a with Run args => Some args | _ => None end)) in Hpre.
  fold (runCalls (issued (splitVideoBrowser codec) w)) in Hpre.
  fold (runCalls (fullRunActions f (numPartsOf (videoDuration (session w))))) in Hpre.
  rewrite runCalls_full in Hpre.
  pose proof (prefix_lookup_Some _ _ _ _ Hk Hpre) as Hfull.
  rewrite list_lookup_fmap in Hfull.
  destruct (seqZ 0 (numPartsOf (videoDuration (session w))) !! k) as [j|] eqn:Hj; [|done].
  apply lookup_seqZ in Hj as [-> Hlt]. cbn in Hfull. injection Hfull as <-.
  split_and!; [done|done| |].
  - apply specSegmentDuration_full.
  - apply specSegmentDuration_short.
Qed.

(** The amended C2 in scenario A. *)
Lemma transcode_call_arguments_witness :
  (2 < numPartsOf (videoDuration (session scenarioA)))%Z
  ∧ runCalls (issued (splitVideoBrowser healthyCodec) scenarioA) !! 1%nat
      = Some [ "-i"; "input.mp4"; "-ss"; "120"; "-t"; "120"; "-c"; "copy";
               "-avoid_negative_ts"; "make_zero"; "output_1.mp4" ].
Proof.
  split.
  - apply (transcode_call_arguments healthyCodec scenarioA (videoFile (50 * MiB)) 2%nat
             (ffmpegArgs 2)); vm_compute; reflexivity.
  - vm_compute. reflexivity.
Defined.

(** ** The segments of a completed run *)





(** ** The progress of a local run *)

Lemma progress_scale_mono (numParts : Z) (x y : Q) :
  (0 < numParts)%Z → (x <= y)%Q →
  (x / inject_Z numParts * 100 <= y / inject_Z numParts * 100)%Q.
Proof.
  intros HN Hxy. apply Qmult_le_compat_r; [|lra].
  unfold Qdiv. apply Qmult_le_compat_r; [done|].
  apply Qinv_le_0_compat. change 0%Q with (inject_Z 0). rewrite <- Zle_Qle. lia.
Qed.

Lemma midProgress_le_endProgress (numParts i : Z) :
  (0 < numParts)%Z → (midProgress numParts i <= endProgress numParts i)%Q.
Proof. intros HN. apply progress_scale_mono; [done|lra]. Qed.



(** The last value of a run of at least one segment is 100. *)
Lemma endProgress_last (numParts : Z) :
  (0 < numParts)%Z → (endProgress numParts (numParts - 1) == 100)%Q.
Proof.
  intros HN. unfold endProgress.
  assert (inject_Z (numParts - 1) + 1 == inject_Z numParts)%Q as ->.
  { change 1%Q with (inject_Z 1). rewrite <- inject_Z_plus.
    replace (numParts - 1 + 1)%Z with numParts by lia. reflexivity. }
  assert (¬ (inject_Z numParts == 0)%Q) as Hne.
  { change 0%Q with (inject_Z 0). rewrite inject_Z_injective. lia. }
  field. done.
Qed.






(** ** A failing local run *)

(** C6 at a failing input: in scenario A with a runtime whose transcode
    call throws, the run ends in [Error] with the cause in the message and
    publishes no segment, but the input buffer written into the runtime is
    still there and no call has removed it. *)
Theorem failed_run_leaves_input_buffer :
  let w' := exec (handleSplit brokenRunCodec) scenarioA in
  status (session w') = Error
  ∧ error (session w') = Some "処理エラー: transcode failed"
  ∧ splitFiles (session w') = []
  ∧ elements (runtimeFS w') = ["input.mp4"]
  ∧ issued (handleSplit brokenRunCodec) scenarioA
    = [ Report 0%Q; CreateFFmpeg; Load; FetchFile (videoFile (50 * MiB));
        WriteFile "input.mp4"; Report (midProgress 3 0); Run (ffmpegArgs 0) ].
Proof. vm_compute. done. Qed.

(** The same for every runtime: when a local run fails after the input
    buffer was written, the buffer stays in the runtime. *)
Lemma failed_run_keeps_input_buffer (codec : Codec) (w : World) (f : File) :
  selectedFile (session w) = Some f →
  inputWritten codec f →
  status (session (exec (splitVideoBrowser codec) w)) ≠ Completed →
  "input.mp4" ∈ runtimeFS (exec (splitVideoBrowser codec) w).
Proof.
  intros Hsel Hin Hnot.
  destruct (splitVideoBrowser_outcome codec w f Hsel)
    as [N files _ Hfr _ _ _|e N _ _ _ Hfs]; [|by apply Hfs].
  apply frame_fields in Hfr as (Hst & _). done.
Qed.

(** A local run that does not complete ends in [Error]; the message
    carries what one of the calls into the runtime threw, and the segment
    list of the session is not touched. *)
Lemma failed_run_is_all_or_nothing (codec : Codec) (w : World) (f : File) :
  selectedFile (session w) = Some f →
  let w' := exec (splitVideoBrowser codec) w in
  status (session w') ≠ Completed →
  ∃ e, thrownByCodec codec f (numPartsOf (videoDuration (session w))) e
    ∧ status (session w') = Error
    ∧ error (session w') = Some (MSG_LOCAL_ERROR e)
    ∧ splitFiles (session w') = splitFiles (session w).
Proof.
  intros Hsel w' Hnot.
  destruct (splitVideoBrowser_outcome codec w f Hsel)
    as [N files _ Hfr _ _ _|e N _ Hfr Hth Hin];
    apply frame_fields in Hfr as (Hst & Her & _ & _ & _ & Hsf & _).
  - done.
  - exists e. done.
Qed.

Lemma failed_run_is_all_or_nothing_witness :
  let w' := exec (splitVideoBrowser brokenRunCodec) scenarioA in
  status (session w') = Error ∧ splitFiles (session w') = [].
Proof.
  destruct (failed_run_is_all_or_nothing brokenRunCodec scenarioA (videoFile (50 * MiB)))
    as (e & _ & Hst & _ & Hsf).
  - reflexivity.
  - vm_compute. discriminate.
  - split; [exact Hst|]. cbn zeta. rewrite Hsf. reflexivity.
Defined.

(** A completed local run leaves no buffer in the runtime. *)
Lemma completed_run_releases_buffers (codec : Codec) (w : World) (f : File) :
  selectedFile (session w) = Some f →
  status (session (exec (splitVideoBrowser codec) w)) = Completed →
  runtimeFS (exec (splitVideoBrowser codec) w) = ∅.
Proof.
  intros Hsel Hdone.
  destruct (splitVideoBrowser_outcome codec w f Hsel)
    as [N files _ _ _ _ Hfs|e N _ Hfr _ _]; [done|].
  apply frame_fields in Hfr as (Hst & _). rewrite Hdone in Hst. discriminate.
Qed.

Lemma completed_run_releases_buffers_witness :
  runtimeFS (exec (splitVideoBrowser healthyCodec) scenarioA) = ∅.
Proof.
  apply (completed_run_releases_buffers healthyCodec scenarioA (videoFile (50 * MiB))).
  - reflexivity.
  - vm_compute. reflexivity.
Defined.

(** ** The remote path in the scenarios of the specification *)

(** Scenario B: 400 MiB and 600 s take the server path with the large-file
    warning, five parts are announced, and the split action uploads. *)
Lemma scenarioB_takes_server_path :
  useServerProcessing (session scenarioB) = true
  ∧ warning (session scenarioB) = Some WARN_LARGE_FILE
  ∧ numPartsOf (videoDuration (session scenarioB)) = 5%Z
  ∧ (handleSplit healthyCodec scenarioB).1 = Ok (Some AwaitUpload)
  ∧ issued (handleSplit healthyCodec) scenarioB
    = [Report 0%Q; Fetch "POST" (API_BASE_URL +:+ "/split")].
Proof. vm_compute. done. Qed.

(** Scenario D: a file of 6 GiB is rejected at once; nothing is recorded
    and no probe is started. *)
Lemma scenarioD_is_rejected :
  status (session scenarioD) = Error
  ∧ error (session scenarioD)
    = Some ("ファイルサイズが大きすぎます（6.0GB）。" +:+ LF +:+ "5GB以下の動画に対応しています。")
  ∧ selectedFile (session scenarioD) = None
  ∧ trace scenarioD = [Report 0%Q].
Proof. vm_compute. done. Qed.

(** Scenario E: the first status answer reports an error with a detail;
    the loop ends and the session shows the detail. *)
Lemma remote_error_on_first_poll :
  let answer := StatusOk {| job_status := "error"; job_progress := 0;
                            job_files := []; job_error := Some "decode failed" |} in
  let r := splitVideoServer_status "job-1" answer pollingB in
  r.1 = Ok None
  ∧ status (session r.2) = Error
  ∧ error (session r.2) = Some "サーバー処理エラー: decode failed"
  ∧ issued (splitVideoServer_status "job-1" answer) pollingB = [].
Proof. vm_compute. done. Qed.

(** ** Base names *)

Lemma extTail_cons_cons (c c' : ascii) (rest : string) :
  Utils.extTail (String c (String c' rest))
  = Utils.extChar c && Utils.extTail (String c' rest).
Proof. reflexivity. Qed.

Lemma extTail_dot (a b : string) : Utils.extTail (a +:+ String "."%char b) = false.
Proof.
  induction a as [|c a IH].
  - cbn. by destruct b.
  - destruct a as [|c' a'].
    + change (Utils.extTail (String c (String "."%char b)) = false).
      rewrite extTail_cons_cons. change (String "."%char b) with ("" +:+ String "."%char b).
      rewrite IH. apply andb_false_r.
    + change (Utils.extTail (String c (String c' (a' +:+ String "."%char b))) = false).
      rewrite extTail_cons_cons.
      change (String c' (a' +:+ String "."%char b)) with (String c' a' +:+ String "."%char b).
      rewrite IH. apply andb_false_r.
Qed.

(** [getBaseName] removes a final extension: a dot followed by one or more
    characters other than [/] and [.]. *)
Lemma getBaseName_strips_extension (base ext : string) :
  Utils.extTail ext = true →
  Utils.getBaseName (base +:+ String "."%char ext) = base.
Proof.
  intros Hext. induction base as [|c base IH].
  - change (Utils.getBaseName (String "."%char ext) = "").
    cbn [Utils.getBaseName]. by rewrite Hext.
  - change (Utils.getBaseName (String c (base +:+ String "."%char ext)) = String c base).
    cbn [Utils.getBaseName]. by rewrite extTail_dot, andb_false_r, IH.
Qed.

Lemma getBaseName_strips_extension_witness :
  Utils.getBaseName "holiday.2024.mp4" = "holiday.2024".
Proof. apply (getBaseName_strips_extension "holiday.2024" "mp4"). reflexivity. Defined.

(** ** lib/utils: sizes and durations *)




Lemma Qfloor_div_60 (x : Q) : Qfloor (x / 60)%Q = (Qfloor x / 60)%Z.
Proof.
  destruct x as [n d]. unfold Qfloor, Qdiv, Qmult, Qinv. cbn.
  rewrite Z.mul_1_r, Pos2Z.inj_mul, Z.div_div by lia. done.
Qed.

Lemma Qfloor_sub_Z (x : Q) (z : Z) : Qfloor (x - inject_Z z)%Q = (Qfloor x - z)%Z.
Proof.
  destruct x as [n d]. unfold Qfloor, Qminus, Qplus, Qopp, inject_Z. cbn.
  rewrite Z.mul_1_r, Pos.mul_1_r.
  replace (n + - z * Z.pos d)%Z with (n + (- z) * Z.pos d)%Z by lia.
  rewrite Z.div_add by lia. lia.
Qed.

Lemma padStart2_below_60 (r : Z) :
  (0 <= r < 60)%Z → String.length (Utils.padStart2 (Utils.toString r)) = 2%nat.
Proof.
  intros Hr.
  assert (forallb (fun z => Nat.eqb (String.length (Utils.padStart2 (Utils.toString z))) 2)
            (seqZ 0 60) = true) as Hall by (vm_compute; reflexivity).
  rewrite forallb_forall in Hall. apply Nat.eqb_eq, Hall.
  apply list_elem_of_In, elem_of_seqZ. lia.
Qed.

(** [formatDuration] of a non-negative duration prints the whole seconds
    as minutes and seconds: the seconds are below 60 and always take two
    characters, the minutes are not capped (there is no hour field). *)
Lemma formatDuration_whole_seconds (seconds : Q) :
  (0 <= seconds)%Q →
  let total := Qfloor seconds in
  Utils.formatDuration seconds
  = Utils.toString (total / 60) +:+ "分"
    +:+ Utils.padStart2 (Utils.toString (total mod 60)) +:+ "秒"
  ∧ (0 <= total mod 60 < 60)%Z
  ∧ (60 * (total / 60) + total mod 60 = total)%Z
  ∧ String.length (Utils.padStart2 (Utils.toString (total mod 60))) = 2%nat.
Proof.
  intros Hs total.
  assert (0 <= total mod 60 < 60)%Z as Hmod by (apply Z.mod_pos_bound; lia).
  split; [|split; [done|split; [by rewrite <- Z.div_mod by lia|by apply padStart2_below_60]]].
  unfold Utils.formatDuration, Utils.remainder, Utils.Math_trunc.
  assert (Qle_bool 0 (seconds / 60) = true) as ->.
  { apply Qle_bool_iff. apply Qle_shift_div_l; lra. }
  rewrite Qfloor_div_60. fold total.
  assert (Qfloor (seconds - 60 * inject_Z (total / 60))%Q = (total mod 60)%Z) as ->; [|done].
  assert (60 * inject_Z (total / 60) == inject_Z (60 * (total / 60)))%Q as ->.
  { by rewrite inject_Z_mult. }
  rewrite Qfloor_sub_Z. fold total. rewrite Z.mod_eq by lia. done.
Qed.

Lemma formatDuration_whole_seconds_witness :
  Utils.formatDuration (7325 # 10) = "12分12秒".
Proof.
  destruct (formatDuration_whole_seconds (7325 # 10)) as (H & _).
  - vm_compute. discriminate.
  - rewrite H. vm_compute. reflexivity.
Defined.

(** ** lib/utils: base names and printed integers *)

(** [getBaseName] returns the name itself or the name without one final
    extension: what it removes is empty, or is a dot followed by one or
    more characters none of which is [/] or [.]. *)
Lemma getBaseName_removes_one_extension (filename : string) :
  ∃ removed,
    filename = Utils.getBaseName filename +:+ removed
    ∧ (removed = "" ∨ ∃ ext, removed = String "."%char ext ∧ Utils.extTail ext = true).
Proof.
  induction filename as [|c rest IH].
  - exists "". split; [done|by left].
  - cbn [Utils.getBaseName].
    destruct (Ascii.eqb c "."%char && Utils.extTail rest) eqn:E.
    + apply andb_true_iff in E as [Hc Hrest]. apply Ascii.eqb_eq in Hc. subst c.
      exists (String "."%char rest). split; [done|]. right. by exists rest.
    + destruct IH as (removed & Hrest & Hremoved).
      exists removed. split; [|done].
      change (String c rest = String c (Utils.getBaseName rest +:+ removed)).
      by rewrite <- Hrest.
Qed.

Lemma Z_to_int_proper (z : Z) :
  Z.to_int z ≠ Decimal.Pos Decimal.Nil ∧ Z.to_int z ≠ Decimal.Neg Decimal.Nil.
Proof.
  destruct z as [|p|p]; cbn; split; try discriminate;
    intros [= H]; by apply DecimalPos.Unsigned.to_uint_nonnil in H.
Qed.

(** Printing an integer loses nothing: different integers print differently. *)
Lemma toString_inj (a b : Z) : Utils.toString a = Utils.toString b → a = b.
Proof.
  unfold Utils.toString. intros H.
  apply DecimalZ.to_int_inj.
  destruct (Z_to_int_proper a) as [Ha1 Ha2], (Z_to_int_proper b) as [Hb1 Hb2].
  pose proof (NilZero.isi _ Ha1 Ha2) as Ia. pose proof (NilZero.isi _ Hb1 Hb2) as Ib.
  rewrite H in Ia. congruence.
Qed.

Lemma string_length_app (s t : string) :
  String.length (s +:+ t) = (String.length s + String.length t)%nat.
Proof.
  induction s as [|c s IH]; [done|].
  change (S (String.length (s +:+ t)) = S (String.length s + String.length t)).
  by rewrite IH.
Qed.

Lemma string_app_inv_tail (s1 s2 t : string) : s1 +:+ t = s2 +:+ t → s1 = s2.
Proof.
  revert s2. induction s1 as [|c s1 IH]; intros [|c2 s2] H.
  - done.
  - apply (f_equal String.length) in H. rewrite !string_length_app in H.
    cbn [String.length] in H. lia.
  - apply (f_equal String.length) in H. rewrite !string_length_app in H.
    cbn [String.length] in H. lia.
  - change (String c (s1 +:+ t) = String c2 (s2 +:+ t)) in H.
    injection H as -> H. f_equal. by apply IH.
Qed.

Lemma string_app_inv_head (s t1 t2 : string) : s +:+ t1 = s +:+ t2 → t1 = t2.
Proof.
  induction s as [|c s IH]; [done|]. intros H.
  change (String c (s +:+ t1) = String c (s +:+ t2)) in H.
  injection H as H. by apply IH.
Qed.

Lemma outputName_inj (baseName : string) (i j : Z) :
  outputName baseName i = outputName baseName j → i = j.
Proof.
  unfold outputName. intros H.
  apply string_app_inv_head, (string_app_inv_head "_part"), string_app_inv_tail in H.
  apply toString_inj in H. lia.
Qed.

(** The segments a completed local run publishes have pairwise different
    part numbers and pairwise different names, so neither the list keys of
    the page nor the saved files collide. *)
Lemma completed_run_segments_distinct (codec : Codec) (w : World) (f : File) :
  selectedFile (session w) = Some f →
  let w' := exec (splitVideoBrowser codec) w in
  status (session w') = Completed →
  NoDup (partNumber <$> splitFiles (session w'))
  ∧ NoDup (name <$> splitFiles (session w')).
Proof.
  intros Hsel w' Hdone.
  assert (splitFiles (session w')
          = newSplitFile codec (Utils.getBaseName (file_name f))
              <$> seqZ 0 (numPartsOf (videoDuration (session w)))) as ->.
  { destruct (splitVideoBrowser_outcome codec w f Hsel) as [N' files _ Hfr _ _ _|e N' _ Hfr _ _];
      apply frame_fields in Hfr as (Hst & _ & _ & _ & _ & Hsf & _).
    - exact Hsf.
    - fold w' in Hst. rewrite Hdone in Hst. discriminate. }
  rewrite <- !list_fmap_compose. split.
  - apply NoDup_fmap_2_strong; [|apply NoDup_seqZ]. intros i j _ _ H. cbn in H. lia.
  - apply NoDup_fmap_2_strong; [|apply NoDup_seqZ]. intros i j _ _ H. cbn in H.
    by apply outputName_inj in H.
Qed.

Lemma completed_run_segments_distinct_witness :
  NoDup (name <$> splitFiles (session (exec (splitVideoBrowser healthyCodec) scenarioA))).
Proof.
  apply (completed_run_segments_distinct healthyCodec scenarioA (videoFile (50 * MiB))).
  - reflexivity.
  - vm_compute. reflexivity.
Defined.

(** ** The number of parts *)



(** Whenever the page offers the split button, at least two parts are
    announced and will be cut. *)
Lemma split_offered_means_two_parts (st : Session) :
  splitButtonShown st = true → (2 <= announcedParts st)%Z.
Proof.
  unfold splitButtonShown, Qgt_bool, announcedParts, numPartsOf.
  rewrite andb_true_iff, negb_true_iff. intros [_ Hd].
  assert (inject_Z SEGMENT_DURATION < videoDuration st)%Q as Hlt.
  { apply Qnot_le_lt. intros Hle. apply Qle_bool_iff in Hle. congruence. }
  change (inject_Z SEGMENT_DURATION) with 120%Q in *.
  pose proof (Qle_ceiling (videoDuration st / 120)) as Hle.
  assert (videoDuration st == videoDuration st / 120 * 120)%Q as Hv by field.
  set (x := (videoDuration st / 120)%Q) in *.
  assert (1 < inject_Z (Qceiling x))%Q as H1 by lra.
  change 1%Q with (inject_Z 1) in H1. rewrite <- Zlt_Qlt in H1. lia.
Qed.

Lemma split_offered_means_two_parts_witness :
  (2 <= announcedParts (session scenarioA))%Z.
Proof. apply split_offered_means_two_parts. reflexivity. Defined.

(** ** The range of the local progress *)

Lemma fullRunReports_range (numParts : Z) (p : Q) :
  p ∈ fullRunReports numParts → (0 <= p <= 100)%Q.
Proof.
  unfold fullRunReports. intros [->|Hin]%elem_of_cons; [lra|].
  apply list_elem_of_bind in Hin as (i & Hp & Hi).
  apply elem_of_seqZ in Hi.
  assert (0 < numParts)%Z as HN by lia.
  assert (0 <= midProgress numParts i)%Q as Hmid.
  { assert (0 / inject_Z numParts * 100 <= midProgress numParts i)%Q as H.
    { apply progress_scale_mono; [done|].
      assert (0 <= inject_Z i)%Q by (change 0%Q with (inject_Z 0); rewrite <- Zle_Qle; lia).
      lra. }
    unfold Qdiv in H. rewrite !Qmult_0_l in H. done. }
  assert (endProgress numParts i <= 100)%Q as Hend.
  { rewrite <- (endProgress_last numParts HN). apply progress_scale_mono; [done|].
    assert (inject_Z i <= inject_Z (numParts - 1))%Q by (rewrite <- Zle_Qle; lia). lra. }
  pose proof (midProgress_le_endProgress numParts i HN) as Hme.
  apply elem_of_cons in Hp as [->|Hp]; [lra|].
  apply list_elem_of_singleton in Hp as ->. lra.
Qed.

(** Every progress value a local run reports lies between 0 and 100,
    whether the run completes or fails. *)
Lemma local_progress_in_range (codec : Codec) (w : World) (f : File) (p : Q) :
  selectedFile (session w) = Some f →
  p ∈ reports (issued (splitVideoBrowser codec) w) →
  (0 <= p <= 100)%Q.
Proof.
  intros Hsel Hp.
  destruct (splitVideoBrowser_issued codec w f Hsel) as [Hpre _].
  apply (omap_prefix (fun a => match a with Report p => Some p | _ => None end)) in Hpre.
  fold (reports (issued (splitVideoBrowser codec) w)) in Hpre.
  fold (reports (fullRunActions f (numPartsOf (videoDuration (session w))))) in Hpre.
  rewrite reports_full in Hpre.
  destruct Hpre as [k Hk].
  apply (fullRunReports_range (numPartsOf (videoDuration (session w)))).
  rewrite Hk. apply elem_of_app. by left.
Qed.

Lemma local_progress_in_range_witness :
  (0 <= midProgress 3 1 <= 100)%Q.
Proof.
  apply (local_progress_in_range healthyCodec scenarioA (videoFile (50 * MiB))).
  - reflexivity.
  - apply (list_elem_of_lookup_2 _ 3%nat). vm_compute. reflexivity.
Defined.

(** ** The split action on its two paths *)

(** Without a selected file the split action does nothing at all. *)
Lemma handleSplit_without_file (codec : Codec) (w : World) :
  selectedFile (session w) = None → handleSplit codec w = (Ok None, w).
Proof.
  intros H. unfold handleSplit, splitVideoServer, splitVideoBrowser. munfold.
  destruct w as [s fs t]. cbn in *.
  destruct (useServerProcessing s); cbn; rewrite H; reflexivity.
Qed.

Lemma handleSplit_without_file_witness :
  handleSplit healthyCodec initialWorld = (Ok None, initialWorld).
Proof. apply handleSplit_without_file. reflexivity. Defined.


Lemma handleSplit_local (codec : Codec) (w : World) :
  useServerProcessing (session w) = false →
  exec (handleSplit codec) w = exec (splitVideoBrowser codec) w.
Proof.
  intros H. unfold handleSplit. munfold. rewrite H.
  by destruct (splitVideoBrowser codec w) as [[?|?] ?].
Qed.





(** ** A probe that fails *)

(** When the duration of a valid file cannot be read the session ends in
    [Error] with the read-failure message.  The file stays recorded and the
    duration of the file before it stays in place, but the page renders
    neither the file card nor the split button. *)
Lemma probe_failure_ends_in_error (w : World) (f : File) :
  String.prefix "video/" (file_type f) = true →
  (file_size f <= SERVER_MAX_SIZE)%Z →
  ∃ k w1, handleFileSelect (Some f) w = (Ok (Some k), w1)
    ∧ let s := session (exec (handleFileSelect_resume k Rejected) w1) in
      status s = Error
      ∧ error s = Some MSG_PROBE_FAILED
      ∧ warning s = None
      ∧ selectedFile s = Some f
      ∧ videoDuration s = videoDuration (session w)
      ∧ infoCardShown s = false
      ∧ splitButtonShown s = false.
Proof.
  intros Hv Hs. apply Z.ltb_ge in Hs.
  unfold handleFileSelect, handleFileSelect_resume. munfold. rewrite Hv, Hs. cbn.
  do 2 eexists. split; [reflexivity|]. cbn. done.
Qed.

Lemma probe_failure_ends_in_error_witness :
  ∃ k w1, handleFileSelect (Some (videoFile (10 * MiB))) scenarioA = (Ok (Some k), w1)
    ∧ videoDuration (session (exec (handleFileSelect_resume k Rejected) w1)) = 300%Q.
Proof.
  destruct (probe_failure_ends_in_error scenarioA (videoFile (10 * MiB)))
    as (k & w1 & H & _ & _ & _ & _ & Hd & _).
  - reflexivity.
  - vm_compute. discriminate.
  - exists k, w1. split; [exact H|]. rewrite Hd. reflexivity.
Defined.

(** ** Downloads *)

Lemma hrefOf_local (codec : Codec) (baseName : string) (i : Z) :
  hrefOf (newSplitFile codec baseName i) = createObjectURL codec (outputFileName i).
Proof.
  unfold hrefOf, newSplitFile, truthy. cbn.
  destruct (String.eqb_spec (createObjectURL codec (outputFileName i)) "") as [->|]; done.
Qed.

Lemma hrefOf_remote (jobId : string) (jf : JobFile) :
  hrefOf (toSplitFile jobId jf) = downloadUrlOf jobId (jf_partNumber jf).
Proof. reflexivity. Qed.

(** Saving everything after a completed local run clicks one anchor per
    segment, in order, the [j]-th (from 0) after [j] seconds; it saves the
    blob made from [output_<j>.mp4] under the name [<base>_part<j+1>.mp4]. *)
Lemma download_all_after_local_run (codec : Codec) (w : World) (f : File) :
  selectedFile (session w) = Some f →
  let w' := exec (splitVideoBrowser codec) w in
  status (session w') = Completed →
  handleDownloadAll (splitFiles (session w'))
  = (fun j => (j * 1000,
               {| href := createObjectURL codec (outputFileName j);
                  download := Utils.getBaseName (file_name f) +:+ "_part"
                              +:+ Utils.toString (j + 1) +:+ ".mp4" |})%Z)
    <$> seqZ 0 (numPartsOf (videoDuration (session w))).
Proof.
  intros Hsel w' Hdone.
  assert (splitFiles (session w')
          = newSplitFile codec (Utils.getBaseName (file_name f))
              <$> seqZ 0 (numPartsOf (videoDuration (session w)))) as ->.
  { destruct (splitVideoBrowser_outcome codec w f Hsel) as [N' files _ Hfr _ _ _|e N' _ Hfr _ _];
      apply frame_fields in Hfr as (Hst & _ & _ & _ & _ & Hsf & _).
    - exact Hsf.
    - fold w' in Hst. rewrite Hdone in Hst. discriminate. }
  unfold handleDownloadAll. apply list_eq. intros i.
  rewrite list_lookup_imap, !list_lookup_fmap.
  destruct (seqZ 0 (numPartsOf (videoDuration (session w))) !! i) as [j|] eqn:Hj; [|done].
  apply lookup_seqZ in Hj as [-> _]. cbn.
  unfold handleDownload. rewrite hrefOf_local. done.
Qed.

Lemma download_all_after_local_run_witness :
  (fst <$> handleDownloadAll (splitFiles (session (exec (splitVideoBrowser healthyCodec) scenarioA))))
  = [0; 1000; 2000]%Z.
Proof.
  rewrite (download_all_after_local_run healthyCodec scenarioA (videoFile (50 * MiB))).
  - vm_compute. reflexivity.
  - reflexivity.
  - vm_compute. reflexivity.
Defined.

(** ** The remote job as a whole *)

Lemma requests_app (t1 t2 : list Action) : requests (t1 ++ t2) = requests t1 ++ requests t2.
Proof. apply omap_app. Qed.

(** One pass of the loop sends one status request for the job, leaves the
    job id of the session alone and goes on exactly when the answer is not
    terminal. *)
Lemma pollOnce_spec (jobId : string) (a : StatusAnswer) (w : World) :
  (pollOnce jobId a w).1 = Ok (if terminal a then None else Some (AwaitTimer jobId))
  ∧ (∃ T, trace (pollOnce jobId a w).2 = trace w ++ T
        ∧ requests T = [("GET", statusUrl jobId)])
  ∧ currentJobIdRef (session (pollOnce jobId a w).2) = currentJobIdRef (session w).
Proof.
  unfold pollOnce, splitVideoServer_timer, splitVideoServer_status, splitVideoServer_catch,
    terminal. munfold. cbn.
  destruct a as [e| |js]; cbn.
  - split_and!; [done| |done]. eexists. split; [reflexivity|done].
  - split_and!; [done| |done]. eexists. split; [reflexivity|done].
  - destruct (String.eqb (job_status js) "error"); cbn.
    + split_and!; [done| |done]. eexists. split; [reflexivity|done].
    + destruct (String.eqb (job_status js) "completed"); cbn.
      * split_and!; [done| |done]. eexists. split; [by rewrite <- app_assoc|done].
      * split_and!; [done| |done]. eexists. split; [by rewrite <- !app_assoc|done].
Qed.

Lemma watch_step (jobId : string) (a : StatusAnswer) (rest : list StatusAnswer) (w : World) :
  watch jobId (a :: rest) w
  = if terminal a then (Ok None, (pollOnce jobId a w).2)
    else watch jobId rest (pollOnce jobId a w).2.
Proof.
  destruct (pollOnce_spec jobId a w) as (Hr & _).
  cbn [watch]. unfold mbind at 1, M_bind at 1.
  destruct (pollOnce jobId a w) as [r w1]. cbn in Hr |- *. subst r.
  by destruct (terminal a).
Qed.

Lemma polls_le_length (answers : list StatusAnswer) : (polls answers ≤ length answers)%nat.
Proof.
  induction answers as [|a rest IH]; cbn; [lia|]. destruct (terminal a); lia.
Qed.

Lemma watch_spec (answers : list StatusAnswer) : ∀ (jobId : string) (w : World),
  (watch jobId answers w).1
    = Ok (if existsb terminal answers then None else Some (AwaitTimer jobId))
  ∧ (∃ T, trace (watch jobId answers w).2 = trace w ++ T
        ∧ requests T = replicate (polls answers) ("GET", statusUrl jobId))
  ∧ currentJobIdRef (session (watch jobId answers w).2) = currentJobIdRef (session w).
Proof.
  induction answers as [|a rest IH]; intros jobId w.
  - cbn. split_and!; [done| |done]. exists []. by rewrite app_nil_r.
  - rewrite watch_step. cbn [existsb polls].
    destruct (pollOnce_spec jobId a w) as (_ & (T1 & Ht1 & Hq1) & Href1).
    destruct (terminal a); cbn [orb fst snd].
    + split_and!; [done| |done]. exists T1. done.
    + destruct (IH jobId (pollOnce jobId a w).2) as (Hr & (T2 & Ht2 & Hq2) & Href2).
      split_and!; [done| |congruence].
      exists (T1 ++ T2). split.
      * by rewrite Ht2, Ht1, app_assoc.
      * by rewrite requests_app, Hq1, Hq2.
Qed.

(** The polling loop sends one status request per answer it consumes, all
    for the same job, and none after the first terminal answer (a failure,
    a reported error or [completed]); it never changes the job id held by
    the session. *)
Lemma polling_stops_at_first_terminal_answer
    (jobId : string) (answers : list StatusAnswer) (w : World) :
  requests (issued (watch jobId answers) w)
    = replicate (polls answers) ("GET", statusUrl jobId)
  ∧ (polls answers ≤ length answers)%nat
  ∧ (watch jobId answers w).1
    = Ok (if existsb terminal answers then None else Some (AwaitTimer jobId))
  ∧ currentJobIdRef (session (exec (watch jobId answers) w)) = currentJobIdRef (session w).
Proof.
  destruct (watch_spec answers jobId w) as (Hr & (T & Ht & Hq) & Href).
  split_and!; [|apply polls_le_length|done|done].
  by rewrite (issued_app _ _ _ Ht).
Qed.






Lemma downloadUrlOf_truthy (jobId : string) (part : Z) :
  truthy (Some (downloadUrlOf jobId part)) = true.
Proof. reflexivity. Qed.




(** ** An invariant of the session *)

Lemma handles_keeps_error_message (w w' : World) :
  handles w w' →
  (status (session w) = Error → is_Some (error (session w))) →
  status (session w') = Error → is_Some (error (session w')).
Proof.
  intros Hstep Hinv. destruct Hstep as [file w|k a w|w|codec w|k a w].
  - unfold handleFileSelect. munfold. destruct file as [f|]; cbn; [|done].
    destruct (String.prefix "video/" (file_type f)); cbn; [|done].
    destruct (SERVER_MAX_SIZE <? file_size f)%Z; cbn; done.
  - unfold handleFileSelect_resume. munfold. destruct a as [d|]; cbn; [|done].
    destruct (Qle_bool d (inject_Z SEGMENT_DURATION)); cbn; [done|].
    destruct (shouldUseServer k); cbn; done.
  - unfold handleReset. munfold. cbn.
    destruct (currentJobIdRef (session w)) as [j|]; cbn; [|done].
    destruct (String.eqb j ""); cbn; done.
  - destruct (selectedFile (session w)) as [f|] eqn:Hsel.
    + destruct (useServerProcessing (session w)) eqn:Huse.
      * unfold handleSplit, splitVideoServer. munfold. rewrite Huse, Hsel. cbn. done.
      * rewrite handleSplit_local by done.
        destruct (splitVideoBrowser_outcome codec w f Hsel)
          as [N files _ Hfr _ _ _|e N _ Hfr _ _];
          apply frame_fields in Hfr as (Hst & Her & _); rewrite Hst, Her; cbn; done.
    + unfold exec. rewrite handleSplit_without_file by done. done.
  - unfold splitVideoServer_resume, splitVideoServer_uploaded, splitVideoServer_timer,
      splitVideoServer_status, splitVideoServer_catch. munfold.
    destruct k as [|j|j], a as [[e| |j']| |[e| |js]]; cbn; try done.
    destruct (String.eqb (job_status js) "error"); cbn; [done|].
    destruct (String.eqb (job_status js) "completed"); cbn; done.
Qed.

(** Whatever the user does and however the suspended handlers interleave,
    a session in [Error] always has a message to show. *)
Lemma error_state_has_message (w : World) :
  reachable w → status (session w) = Error → is_Some (error (session w)).
Proof.
  unfold reachable. intros Hreach. revert w Hreach.
  apply (rtc_ind_r (R := handles)
           (fun w => status (session w) = Error → is_Some (error (session w)))).
  - discriminate.
  - intros w1 w2 _ Hstep IH. by apply (handles_keeps_error_message w1 w2).
Qed.

Lemma error_state_has_message_witness :
  is_Some (error (session failedRemoteB)).
Proof.
  apply error_state_has_message; [|reflexivity].
  unfold reachable, failedRemoteB, pollingB, submittedB, scenarioB, selectAndProbe.
  eapply rtc_r; [eapply rtc_r; [eapply rtc_r; [eapply rtc_r;
    [eapply rtc_r; [eapply rtc_r; [apply rtc_refl|] |] |] |] |] |].
  - apply (handles_select (Some (videoFile (400 * MiB)))).
  - apply (handles_probe {| probed := videoFile (400 * MiB); shouldUseServer := true |}
             (Resolved 600)).
  - apply (handles_split healthyCodec).
  - apply (handles_remote AwaitUpload (Uploaded (UploadOk "job-1"))).
  - apply (handles_remote (AwaitTimer "job-1") TimerFired).
  - apply (handles_remote (AwaitStatus "job-1") (StatusArrived StatusNotOk)).
Defined.

(** ** The working set of the codec runtime *)

Lemma segment_buffers (codec : Codec) (baseName : string) (numParts i : Z)
    (files : list SplitFile) (w : World) :
  runtimeFS (segment codec baseName numParts i files w).2
    ⊆ runtimeFS w ∪ {[ outputFileName i ]}
  ∧ (∀ files', (segment codec baseName numParts i files w).1 = Ok files' →
       runtimeFS (segment codec baseName numParts i files w).2 ⊆ runtimeFS w).
Proof.
  unfold segment. munfold. cbn.
  destruct (run codec (ffmpegArgs i)); cbn; [by split; [apply union_subseteq_l|]|].
  destruct (FS_readFile codec (outputFileName i)); cbn; [done|].
  destruct (FS_unlink codec (outputFileName i)); cbn; [done|].
  split; [|intros _ _]; intros b [[Hb|Hb]%elem_of_union Hne]%elem_of_difference;
    try done; by apply elem_of_union_l.
Qed.

Lemma segments_buffers (codec : Codec) (baseName : string) (numParts : Z) (n : nat) :
  ∀ (i : Z) (files : list SplitFile) (w : World),
    (∃ j, runtimeFS (segments codec baseName numParts n i files w).2
            ⊆ runtimeFS w ∪ {[ outputFileName j ]})
    ∧ (∀ files', (segments codec baseName numParts n i files w).1 = Ok files' →
         runtimeFS (segments codec baseName numParts n i files w).2 ⊆ runtimeFS w).
Proof.
  induction n as [|n IH]; intros i files w.
  - cbn. split; [|done]. exists 0%Z. apply union_subseteq_l.
  - rewrite segments_step.
    destruct (segment_buffers codec baseName numParts i files w) as [Hall Hok].
    destruct (segment codec baseName numParts i files w) as [[files1|e] w1];
      cbn [fst snd] in *.
    + specialize (Hok files1 eq_refl).
      destruct (IH (i + 1)%Z files1 w1) as [[j Hj] Hok2]. split.
      * exists j. etrans; [exact Hj|]. by apply union_mono_r.
      * intros files' H. etrans; [by apply (Hok2 files')|done].
    + split; [by exists i|done].
Qed.

(** At the end of a local run, completed or failed at any call, the
    runtime it created holds at most the input buffer and one output
    buffer. *)
Lemma local_run_working_set (codec : Codec) (w : World) (f : File) :
  selectedFile (session w) = Some f →
  createFFmpeg codec = None →
  ∃ j, runtimeFS (exec (splitVideoBrowser codec) w) ⊆ {[ "input.mp4"; outputFileName j ]}.
Proof.
  intros Hsel Hc. unfold splitVideoBrowser, splitVideoBrowser_try. munfold. cbn.
  rewrite Hsel, Hc. cbn.
  destruct (load codec); cbn; [by exists 0%Z|].
  destruct (fetchFile codec f); cbn; [by exists 0%Z|].
  destruct (FS_writeFile codec "input.mp4"); cbn; [by exists 0%Z|].
  match goal with
  | |- context [segments ?c ?b ?np ?n ?i ?fs ?w0] =>
      destruct (segments_buffers c b np n i fs w0) as [[j Hj] _];
      destruct (segments c b np n i fs w0) as [[files|e] w1]
  end; cbn [fst snd runtimeFS] in *; cbn.
  - exists j. destruct (FS_unlink codec "input.mp4"); cbn; set_solver.
  - exists j. set_solver.
Qed.

Lemma local_run_working_set_witness :
  ∃ j, runtimeFS (exec (splitVideoBrowser brokenRunCodec) scenarioA)
         ⊆ {[ "input.mp4"; outputFileName j ]}.
Proof.
  apply (local_run_working_set brokenRunCodec scenarioA (videoFile (50 * MiB)));
    reflexivity.
Defined.
